(** * Digital life lessons server: a shallow embedding of the request handlers

    The server is an Express application over three external services: a
    document store (MongoDB), an identity verifier (Firebase) and a payment
    gateway (Stripe).  Every handler is a short sequence of store calls.  The
    embedding threads the two collections (users, lessons) explicitly as
    lists of documents in store order, and returns the HTTP response next to
    the new collection.

    Documents are schemaless in the source.  Each field gets here the type
    the handlers use it at, and a field that may be missing is an [option]
    ([None] stands for both an absent field and a stored null, which the
    store's equality match does not tell apart).  Query-string parameters are
    taken as strings, and [Number(...)] of a parameter as an integer. *)

From Stdlib Require Import ZArith NArith String Ascii List Lia Permutation.
From stdpp Require Import base decidable option list strings gmap.
From Stdlib Require Import Sorted.

Open Scope string_scope.
Open Scope list_scope.

(** ** JavaScript values *)

(** Truthiness of an optional string: [undefined] and the empty string are
    falsy, every other string is truthy. *)
Definition truthy (o : option string) : bool :=
  match o with
  | Some s => negb (String.eqb s "")
  | None => false
  end.

(** [o || d] on an optional string. *)
Definition or_string (o : option string) (d : string) : string :=
  if truthy o then default d o else d.

(** [o || false] on an optional boolean. *)
Definition or_false (o : option bool) : bool :=
  match o with
  | Some true => true
  | _ => false
  end.

(** [s.split(" ")]: cut at every single space, keeping empty pieces. *)
Fixpoint split_space (s : string) : list string :=
  match s with
  | EmptyString => [EmptyString]
  | String c rest =>
      if Ascii.eqb c " "%char then EmptyString :: split_space rest
      else match split_space rest with
           | piece :: pieces => String c piece :: pieces
           | [] => [String c EmptyString]
           end
  end.

(** ** Document keys *)

(** A document key is a store-generated ObjectId (a 96-bit number) or
    whatever the inserting payload carried in [_id]. *)
Inductive Key :=
| KObjectId (n : N)
| KText (s : string).

#[global] Instance Key_eq_dec : EqDecision Key.
Proof. solve_decision. Defined.

Definition hex_digit (c : ascii) : option N :=
  let n := N_of_ascii c in
  if ((48 <=? n) && (n <=? 57))%N then Some (n - 48)%N
  else if ((97 <=? n) && (n <=? 102))%N then Some (n - 87)%N
  else if ((65 <=? n) && (n <=? 70))%N then Some (n - 55)%N
  else None.

Fixpoint hex_value (s : string) (acc : N) : option N :=
  match s with
  | EmptyString => Some acc
  | String c rest =>
      match hex_digit c with
      | Some d => hex_value rest (16 * acc + d)%N
      | None => None
      end
  end.

(** [new ObjectId(id)] on a route parameter: a text of 24 hexadecimal
    digits gives the key, any other text throws ([None]).  (Older drivers
    also take a text of exactly 12 characters as raw bytes; no statement
    below rests on such an id.) *)
Definition ObjectId (id : string) : option Key :=
  if Nat.eqb (String.length id) 24
  then KObjectId <$> hex_value id 0%N
  else None.

(** ** Documents *)

(** [createdAt] is written by clients: a BSON date (milliseconds since the
    epoch) or a text. *)
Inductive Stamp :=
| Date (ms : Z)
| Text (s : string).

#[global] Instance Stamp_eq_dec : EqDecision Stamp.
Proof. solve_decision. Defined.

Module Comment.
(** The two shapes the revisions push onto [comments]:
    [{name, email, comment, createdAt}] and [{userEmail, text, createdAt}]. *)
Inductive t :=
| Named (name : option string) (email : string) (comment : option string)
        (createdAt : Z)
| Plain (userEmail : string) (text : option string) (createdAt : Z).

#[global] Instance comment_eq_dec : EqDecision t.
Proof. solve_decision. Defined.
End Comment.

Module Lesson.
Record t := mk {
  _id : Key;
  title : option string;
  category : option string;
  visibility : option string;
  accessLevel : option string;
  createdAt : option Stamp;
  likes : option (list string);
  favorites : option (list string);
  comments : option (list Comment.t)
}.

#[global] Instance lesson_eq_dec : EqDecision t.
Proof. solve_decision. Defined.

Definition set_likes (v : list string) (l : t) : t :=
  mk (_id l) (title l) (category l) (visibility l) (accessLevel l)
     (createdAt l) (Some v) (favorites l) (comments l).

Definition set_comments (v : list Comment.t) (l : t) : t :=
  mk (_id l) (title l) (category l) (visibility l) (accessLevel l)
     (createdAt l) (likes l) (favorites l) (Some v).
End Lesson.

Module User.
Record t := mk {
  _id : option Key;
  email : option string;
  name : option string;
  photoURL : option string;
  role : option string;
  isPremium : option bool;
  transactionId : option string;
  create_at : option Z
}.

#[global] Instance user_eq_dec : EqDecision t.
Proof. solve_decision. Defined.

Definition set_id (k : Key) (u : t) : t :=
  mk (Some k) (email u) (name u) (photoURL u) (role u) (isPremium u)
     (transactionId u) (create_at u).

Definition set_create_at (now : Z) (u : t) : t :=
  mk (_id u) (email u) (name u) (photoURL u) (role u) (isPremium u)
     (transactionId u) (Some now).

Definition set_role (r : string) (u : t) : t :=
  mk (_id u) (email u) (name u) (photoURL u) (Some r) (isPremium u)
     (transactionId u) (create_at u).

(** [$set: { isPremium: true, transactionId }] *)
Definition set_premium (tid : option string) (u : t) : t :=
  mk (_id u) (email u) (name u) (photoURL u) (role u) (Some true)
     tid (create_at u).
End User.

(** ** The document store *)

(** What [updateOne] acknowledges. *)
Record UpdateResult := mkUpdateResult {
  matchedCount : nat;
  modifiedCount : nat
}.

Section Collection.
Context {A : Type} `{EqDecision A}.
Variable q : A -> bool.

(** [findOne(q)]: the first matching document in store order. *)
Definition findOne (c : list A) : option A := List.find q c.

(** [countDocuments(q)] *)
Definition countDocuments (c : list A) : nat := length (List.filter q c).

(** [updateOne(q, u)]: the first matching document is rewritten by [u]. *)
Fixpoint updateOne (u : A -> A) (c : list A) : list A :=
  match c with
  | [] => []
  | d :: rest => if q d then u d :: rest else d :: updateOne u rest
  end.

Definition updateResult (u : A -> A) (c : list A) : UpdateResult :=
  match findOne c with
  | None => mkUpdateResult 0 0
  | Some d => mkUpdateResult 1 (if decide (u d = d) then 0 else 1)
  end.
End Collection.

(** ** Responses *)

(** What went wrong inside a [try] block; the handlers echo its message. *)
Inductive Exn :=
| BSONError            (* new ObjectId on a malformed id *)
| MongoServerError     (* the store rejected the command *)
| TypeError            (* property read on null or undefined *)
| GatewayError         (* the payment gateway rejected the call *)
| AuthError.           (* the identity verifier rejected the token *)

Record LevelCount := mkLevelCount {
  lc_accessLevel : string;
  lc_count : nat
}.

Inductive Body :=
| Message (message : string)
| Failure (message : string) (error : Exn)
| ErrorOnly (error : string)
| Page (total : nat) (result : list Lesson.t)
| Updated (message : string) (result : UpdateResult)
| Levels (result : list LevelCount)
| UserExists (message : string) (user : User.t)
| Stored (message : string) (insertedId : Key)
| RoleInfo (role : string) (isPremium : bool)
| AlreadyProcessed (message : string) (transactionId : option string)
| Reconciled (transactionId : option string) (result : UpdateResult).

Record Response := mkResponse {
  status : nat;
  body : Body
}.

(** ** GET /public-lessons *)

Module Params.
(** The query string of GET /public-lessons.  [limit] and [skip] hold
    [Number(...)] of the parameter text. *)
Record t := mk {
  limit : option Z;
  skip : option Z;
  category : option string;
  visibility : option string;
  search : option string
}.
End Params.

(** The filter document the handler builds. *)
Record LessonQuery := mkLessonQuery {
  lq_visibility : string;
  lq_category : option string;
  lq_title : option string      (* { $regex: search, $options: "i" } *)
}.

(** [{ field: v }] on a text field. *)
Definition field_is (v : string) (field : option string) : bool :=
  bool_decide (field = Some v).

(** BSON order on [createdAt]: a missing field sorts lowest, texts (in byte
    order) below dates. *)
Definition createdAt_leb (a b : option Stamp) : bool :=
  match a, b with
  | None, _ => true
  | Some _, None => false
  | Some (Text s), Some (Text t) => String.leb s t
  | Some (Text _), Some (Date _) => true
  | Some (Date _), Some (Text _) => false
  | Some (Date x), Some (Date y) => (x <=? y)%Z
  end.

(** [.sort({ createdAt: -1 })].  The store promises no order among equal
    keys; the function keeps store order there. *)
Fixpoint insert_desc (x : Lesson.t) (sorted : list Lesson.t) : list Lesson.t :=
  match sorted with
  | [] => [x]
  | y :: rest =>
      if createdAt_leb (Lesson.createdAt y) (Lesson.createdAt x)
      then x :: y :: rest
      else y :: insert_desc x rest
  end.

Definition sort_createdAt_desc (c : list Lesson.t) : list Lesson.t :=
  fold_right insert_desc [] c.

(** [.limit(n)]: zero means no limit, and the driver turns a negative [n]
    into a single batch of at most [-n] documents. *)
Definition cursor_limit {A} (n : Z) (c : list A) : list A :=
  if (n =? 0)%Z then c else firstn (Z.to_nat (Z.abs n)) c.

Section PublicListing.
(** The store's regular-expression engine with option [i]: [None] for a
    pattern it rejects. *)
Variable regex_i : string -> option (string -> bool).

Definition build_query (rq : Params.t) : LessonQuery :=
  let query := mkLessonQuery "public" None None in
  let query :=
    if truthy (Params.category rq)
    then mkLessonQuery (lq_visibility query) (Params.category rq) (lq_title query)
    else query in
  let query :=
    if truthy (Params.visibility rq)
    then mkLessonQuery (default "public" (Params.visibility rq))
                       (lq_category query) (lq_title query)
    else query in
  if truthy (Params.search rq)
  then mkLessonQuery (lq_visibility query) (lq_category query) (Params.search rq)
  else query.

(** The predicate a filter document denotes; [None] when the store rejects
    its regular expression. *)
Definition lesson_matches (query : LessonQuery) : option (Lesson.t -> bool) :=
  let base (l : Lesson.t) :=
    field_is (lq_visibility query) (Lesson.visibility l)
    && match lq_category query with
       | Some c => field_is c (Lesson.category l)
       | None => true
       end in
  match lq_title query with
  | None => Some base
  | Some pattern =>
      match regex_i pattern with
      | None => None
      | Some m =>
          Some (fun l => base l
                         && match Lesson.title l with
                            | Some t => m t
                            | None => false
                            end)
      end
  end.

(** The store rejects a pattern its engine cannot compile and a negative
    [skip]; either way the handler's catch block answers 500. *)
Definition get_public_lessons (rq : Params.t) (lessons : list Lesson.t)
  : Response :=
  let limit := default 6%Z (Params.limit rq) in
  let skip := default 0%Z (Params.skip rq) in
  let query := build_query rq in
  match lesson_matches query with
  | None => mkResponse 500 (Failure "Can't get lessons" MongoServerError)
  | Some p =>
      let total := countDocuments p lessons in
      if (skip <? 0)%Z
      then mkResponse 500 (Failure "Can't get lessons" MongoServerError)
      else
        let result :=
          cursor_limit limit
            (drop (Z.to_nat skip)
               (sort_createdAt_desc (List.filter p lessons))) in
        mkResponse 200 (Page total result)
  end.

End PublicListing.

(** ** Lesson reactions *)

(** [{ _id: new ObjectId(id) }] *)
Definition id_is (k : Key) (l : Lesson.t) : bool :=
  bool_decide (Lesson._id l = k).

(** [arr?.includes(x)] *)
Definition includes (x : string) (arr : option (list string)) : bool :=
  match arr with
  | Some a => List.existsb (String.eqb x) a
  | None => false
  end.

(** [$pull: x]: every occurrence goes; a missing array stays missing. *)
Definition pull (x : string) (arr : option (list string))
  : option (list string) :=
  List.filter (fun y => negb (String.eqb x y)) <$> arr.

(** [$addToSet: x]: appended unless present; a missing array is created. *)
Definition addToSet (x : string) (arr : option (list string))
  : option (list string) :=
  match arr with
  | Some a => if List.existsb (String.eqb x) a then Some a else Some (a ++ [x])
  | None => Some [x]
  end.

(** [$push: c] *)
Definition push (c : Comment.t) (arr : option (list Comment.t))
  : list Comment.t :=
  default [] arr ++ [c].

Definition update_likes (f : option (list string) -> option (list string))
  (l : Lesson.t) : Lesson.t :=
  match f (Lesson.likes l) with
  | Some a => Lesson.set_likes a l
  | None => l
  end.


Definition push_comment (c : Comment.t) (l : Lesson.t) : Lesson.t :=
  Lesson.set_comments (push c (Lesson.comments l)) l.

(** The update document the like handler picks after reading [lesson]:
    [$pull] when the email is among its likes, [$addToSet] otherwise. *)
Definition likes_update (email : string) (lesson : Lesson.t)
  : Lesson.t -> Lesson.t :=
  if includes email (Lesson.likes lesson)
  then update_likes (pull email)
  else update_likes (addToSet email).


(** PATCH /lesson/:id/likes, for the principal [email] that verifyJWT
    attached to the request. *)
Definition patch_lesson_likes (email id : string) (lessons : list Lesson.t)
  : Response * list Lesson.t :=
  match ObjectId id with
  | None => (mkResponse 400 (Failure "Failed to add  Like" BSONError), lessons)
  | Some query =>
      match findOne (id_is query) lessons with
      | None => (mkResponse 404 (Message "Lesson not found"), lessons)
      | Some lesson =>
          let update := likes_update email lesson in
          (mkResponse 200
             (Updated "Like add successfully"
                (updateResult (id_is query) update lessons)),
           updateOne (id_is query) update lessons)
      end
  end.


(** PATCH /lesson/:id/comments; [comment] and [name] come from the body,
    [now] is the reading of [new Date()]. *)
Definition patch_lesson_comments (now : Z) (email : string)
  (comment name : option string) (id : string) (lessons : list Lesson.t)
  : Response * list Lesson.t :=
  match ObjectId id with
  | None => (mkResponse 400 (Failure "Failed to add comment" BSONError), lessons)
  | Some query =>
      let commentObj := Comment.Named name email comment now in
      (mkResponse 200
         (Updated "Comment added successfully"
            (updateResult (id_is query) (push_comment commentObj) lessons)),
       updateOne (id_is query) (push_comment commentObj) lessons)
  end.



(** ** GET /analytics/accessLevel *)

Definition day_ms : Z := 86400000.

(** [d.setUTCHours(0, 0, 0, 0)] and [d.setUTCHours(23, 59, 59, 999)] *)
Definition startOfUTCDay (d : Z) : Z := (d / day_ms * day_ms)%Z.
Definition endOfUTCDay (d : Z) : Z := (d / day_ms * day_ms + (day_ms - 1))%Z.

(** [{ $gte: startDate, $lte: endDate }] against date bounds matches dates
    only. *)
Definition between (startDate endDate : Z) (c : option Stamp) : bool :=
  match c with
  | Some (Date ms) => (startDate <=? ms)%Z && (ms <=? endDate)%Z
  | _ => false
  end.

(** One output document of [$group: { _id: "$accessLevel", count: { $sum: 1 } }];
    a lesson without the field falls into the null group. *)
Record Group := mkGroup {
  g_id : option string;
  g_count : nat
}.

Fixpoint group_add (k : option string) (groups : list Group) : list Group :=
  match groups with
  | [] => [mkGroup k 1]
  | g :: rest =>
      if decide (g_id g = k)
      then mkGroup k (S (g_count g)) :: rest
      else g :: group_add k rest
  end.

Definition group_by_accessLevel (c : list Lesson.t) : list Group :=
  fold_left (fun groups l => group_add (Lesson.accessLevel l) groups) c [].

(** The [$match] stage: public lessons created inside the window. *)
Definition match_recent_public (startDate endDate : Z) (c : list Lesson.t)
  : list Lesson.t :=
  List.filter
    (fun l => between startDate endDate (Lesson.createdAt l)
              && field_is "public" (Lesson.visibility l))
    c.

(** The two readings of [new Date()] are [now_end] and [now_start]. *)
Definition get_analytics_accessLevel (now_end now_start : Z)
  (lessons : list Lesson.t) : Response :=
  let endDate := endOfUTCDay now_end in
  let startDate := startOfUTCDay (now_start - 6 * day_ms) in
  let data :=
    group_by_accessLevel (match_recent_public startDate endDate lessons) in
  let result :=
    map (fun level =>
           let found := List.find (fun d => bool_decide (g_id d = Some level)) data in
           mkLevelCount level
             (match found with Some d => g_count d | None => 0 end))
        ["free"; "premium"] in
  mkResponse 200 (Levels result).

(** How many lessons of [c] carry the access level [level]. *)
Definition count_level (level : string) (c : list Lesson.t) : nat :=
  length (List.filter (fun l => field_is level (Lesson.accessLevel l)) c).

(** ** Users *)

(** [{ email: e }]; an undefined [e] is sent as null. *)
Definition email_is (e : option string) (u : User.t) : bool :=
  bool_decide (User.email u = e).

Definition objectIds (c : list User.t) : list N :=
  omap (fun u => match User._id u with
                 | Some (KObjectId n) => Some n
                 | _ => None
                 end) c.

(** [insertOne(doc)]: a document without [_id] gets an unused ObjectId; a key
    already in the collection is rejected ([None]). *)
Definition insertOne (doc : User.t) (c : list User.t)
  : option (Key * list User.t) :=
  match User._id doc with
  | Some k =>
      if List.existsb (fun u => bool_decide (User._id u = Some k)) c
      then None
      else Some (k, c ++ [doc])
  | None =>
      let k := KObjectId (N.succ (fold_right N.max 0%N (objectIds c))) in
      Some (k, c ++ [User.set_id k doc])
  end.

(** POST /users; [now] is the reading of [new Date()]. *)
Definition post_users (now : Z) (body : User.t) (users : list User.t)
  : Response * list User.t :=
  let user := User.set_role "user" (User.set_create_at now body) in
  let email := User.email user in
  match findOne (email_is email) users with
  | Some existingUser =>
      (mkResponse 200 (UserExists "User already exists" existingUser), users)
  | None =>
      match insertOne user users with
      | Some (insertedId, users') =>
          (mkResponse 201 (Stored "Data is stored to database" insertedId),
           users')
      | None =>
          (mkResponse 400
             (Failure "Can't store users data to database" MongoServerError),
           users)
      end
  end.

(** GET /users/:email/role *)
Definition get_users_role (email : string) (users : list User.t) : Response :=
  let user := findOne (email_is (Some email)) users in
  mkResponse 200
    (RoleInfo (or_string (user ≫= User.role) "user")
              (or_false (user ≫= User.isPremium))).

(** ** Payment reconciliation *)

(** What the handler reads of a checkout session.  [customer_details] is
    [None] when the gateway reports null, and holds the customer's email
    (itself possibly null) otherwise. *)
Record CheckoutSession := mkCheckoutSession {
  payment_intent : option string;
  payment_status : string;
  customer_details : option (option string)
}.

(** [{ transactionId: t }] *)
Definition transactionId_is (t : option string) (u : User.t) : bool :=
  bool_decide (User.transactionId u = t).

Section Payment.
(** [stripe.checkout.sessions.retrieve]: [None] when the gateway throws. *)
Variable retrieve : string -> option CheckoutSession.

(** PATCH /session-status.  The response is [None] on the path where the
    handler sends nothing. *)
Definition patch_session_status (sessionId : string) (users : list User.t)
  : option Response * list User.t :=
  let failed :=
    (Some (mkResponse 500 (ErrorOnly "Failed to retrieve Stripe checkout session")),
     users) in
  match retrieve sessionId with
  | None => failed
  | Some session =>
      let transactionId := payment_intent session in
      match findOne (transactionId_is transactionId) users with
      | Some existingPayment =>
          (Some (mkResponse 200
                   (AlreadyProcessed "Payment already processed" transactionId)),
           users)
      | None =>
          if String.eqb (payment_status session) "paid"
          then match customer_details session with
               | None => failed
               | Some email =>
                   let update := User.set_premium transactionId in
                   (Some (mkResponse 200
                            (Reconciled transactionId
                               (updateResult (email_is email) update users))),
                    updateOne (email_is email) update users)
               end
          else (None, users)
      end
  end.

End Payment.

(** ** Authorization middleware *)

(** The request context the middleware reads and writes.  Express creates
    it with neither [tokenEmail] nor [decodedEmail]. *)
Record Request := mkRequest {
  authorization : option string;
  tokenEmail : option string;
  decodedEmail : option string
}.

Definition incoming (authorization : option string) : Request :=
  mkRequest authorization None None.

(** A middleware either calls [next()] on the request or responds. *)
Inductive Outcome :=
| Next (req : Request)
| Respond (res : Response).

Section Auth.
(** [admin.auth().verifyIdToken]: the email of the verified token, [None]
    when the verifier throws. *)
Variable verifyIdToken : string -> option string.

Definition verifyJWT (req : Request) : Outcome :=
  let token := authorization req ≫= (fun a => split_space a !! 1%nat) in
  match token with
  | Some t =>
      if String.eqb t ""
      then Respond (mkResponse 401 (Message "Unauthorized Access!"))
      else match verifyIdToken t with
           | Some email =>
               Next (mkRequest (authorization req) (Some email)
                               (decodedEmail req))
           | None =>
               Respond (mkResponse 401 (Failure "Unauthorized Access!" AuthError))
           end
  | None => Respond (mkResponse 401 (Message "Unauthorized Access!"))
  end.

End Auth.

(** [result?.role !== "admin"] *)
Definition not_admin (result : option User.t) : bool :=
  negb (bool_decide (result ≫= User.role = Some "admin")).

Definition verifyAdmin (users : list User.t) (req : Request) : Outcome :=
  let email := tokenEmail req in
  let result := findOne (email_is email) users in
  if not_admin result
  then Respond (mkResponse 403 (Message "Forbidden access"))
  else Next req.

(** ** Earlier revisions *)

(** The handlers above follow the complete server (the revision with the
    lesson reactions, analytics and payment reconciliation).  Two earlier
    revisions differ in the places below. *)

Module IndexJs.
(** src/index.js reads the principal from [req.decodedEmail]. *)
Definition verifyAdmin (users : list User.t) (req : Request) : Outcome :=
  let email := decodedEmail req in
  let result := findOne (email_is email) users in
  if not_admin result
  then Respond (mkResponse 403 (Message "Forbidden access"))
  else Next req.
End IndexJs.

Module Reports.
(** The revision with a separate reports collection: the same
    [req.decodedEmail] in verifyAdmin, and comments of the shape
    [{userEmail, text, createdAt}]. *)
Definition verifyAdmin (users : list User.t) (req : Request) : Outcome :=
  let email := decodedEmail req in
  let result := findOne (email_is email) users in
  if not_admin result
  then Respond (mkResponse 403 (Message "Forbidden access"))
  else Next req.

Definition patch_lesson_comments (now : Z) (email : string)
  (text : option string) (id : string) (lessons : list Lesson.t)
  : Response * list Lesson.t :=
  match ObjectId id with
  | None => (mkResponse 400 (Failure "Failed to add comment" BSONError), lessons)
  | Some query =>
      let commentObj := Comment.Plain email text now in
      (mkResponse 200
         (Updated "Comment added successfully"
            (updateResult (id_is query) (push_comment commentObj) lessons)),
       updateOne (id_is query) (push_comment commentObj) lessons)
  end.
End Reports.

(** ** Further routes *)

(** Bodies of the routes below that [Body] has no shape for. *)
Inductive Reply :=
| Failed (message : string) (error : Exn)
| FailedText (error : string)
| OneLesson (message : string) (result : option Lesson.t)
| LessonList (result : list Lesson.t)
| AllLessons (message : string) (result : list Lesson.t)
| Deleted (message : string) (deletedCount : nat)
| UserList (message : string) (result : list User.t)
| CheckoutUrl (url : string).

Record Answer := mkAnswer {
  a_status : nat;
  a_reply : Reply
}.

(** [deleteOne(q)]: the first matching document goes. *)
Fixpoint deleteOne {A} (q : A -> bool) (c : list A) : list A :=
  match c with
  | [] => []
  | d :: rest => if q d then rest else d :: deleteOne q rest
  end.

(** [updateOne(q, u)] for an update the store can reject on the document
    it matched ([u d = None]); nothing is written then. *)
Definition updateOne_checked {A} (q : A -> bool) (u : A -> option A)
  (c : list A) : option (list A) :=
  match findOne q c with
  | None => Some c
  | Some d =>
      match u d with
      | None => None
      | Some _ => Some (updateOne q (fun x => default x (u x)) c)
      end
  end.

(** [.sort({ key: -1 })] for an order [leb] on the documents' keys, keeping
    store order among equal keys. *)
Fixpoint insert_desc_by {A} (leb : A -> A -> bool) (x : A) (sorted : list A)
  : list A :=
  match sorted with
  | [] => [x]
  | y :: rest =>
      if leb y x then x :: y :: rest else y :: insert_desc_by leb x rest
  end.

Definition sort_desc_by {A} (leb : A -> A -> bool) (c : list A) : list A :=
  fold_right (insert_desc_by leb) [] c.

(** GET /lessons/:id *)
Definition get_lessons_id (id : string) (lessons : list Lesson.t) : Answer :=
  match ObjectId id with
  | None => mkAnswer 400 (Failed "Can't get any lesson to database" BSONError)
  | Some query =>
      mkAnswer 200 (OneLesson "Get the lesson" (findOne (id_is query) lessons))
  end.

(** DELETE /lessons/:id *)
Definition delete_lessons_id (id : string) (lessons : list Lesson.t)
  : Answer * list Lesson.t :=
  match ObjectId id with
  | None =>
      (mkAnswer 400 (Failed "Can't store report to database" BSONError), lessons)
  | Some query =>
      (mkAnswer 200
         (Deleted "Delete lessons"
            (match findOne (id_is query) lessons with
             | Some _ => 1
             | None => 0
             end)),
       deleteOne (id_is query) lessons)
  end.

Module LessonPatch.
(** A request body for [$set] on a lesson: the fields it carries, each with
    a value of the field's type. *)
Record t := mk {
  _id : option Key;
  title : option string;
  category : option string;
  visibility : option string;
  accessLevel : option string;
  createdAt : option Stamp;
  likes : option (list string);
  favorites : option (list string);
  comments : option (list Comment.t)
}.

(** [delete updateData._id] *)
Definition delete_id (p : t) : t :=
  mk None (title p) (category p) (visibility p) (accessLevel p)
     (createdAt p) (likes p) (favorites p) (comments p).
End LessonPatch.

(** A field after [$set]: the body's value when it carries one. *)
Definition set_field {V} (given : option V) (stored : option V) : option V :=
  match given with
  | Some v => Some v
  | None => stored
  end.

(** [$set: body] on a lesson; the store rejects a body whose [_id] is not
    the lesson's own. *)
Definition set_lesson (body : LessonPatch.t) (l : Lesson.t) : option Lesson.t :=
  match LessonPatch._id body with
  | Some k => if decide (k = Lesson._id l) then Some tt else None
  | None => Some tt
  end ≫= fun _ =>
  Some (Lesson.mk (Lesson._id l)
          (set_field (LessonPatch.title body) (Lesson.title l))
          (set_field (LessonPatch.category body) (Lesson.category l))
          (set_field (LessonPatch.visibility body) (Lesson.visibility l))
          (set_field (LessonPatch.accessLevel body) (Lesson.accessLevel l))
          (set_field (LessonPatch.createdAt body) (Lesson.createdAt l))
          (set_field (LessonPatch.likes body) (Lesson.likes l))
          (set_field (LessonPatch.favorites body) (Lesson.favorites l))
          (set_field (LessonPatch.comments body) (Lesson.comments l))).

(** PATCH /lessons/:id *)
Definition patch_lessons_id (body : LessonPatch.t) (id : string)
  (lessons : list Lesson.t) : Response * list Lesson.t :=
  match ObjectId id with
  | None =>
      (mkResponse 400 (Failure "Can't update data to database" BSONError),
       lessons)
  | Some query =>
      let updateData := LessonPatch.delete_id body in
      match updateOne_checked (id_is query) (set_lesson updateData) lessons with
      | Some lessons' =>
          (mkResponse 200
             (Updated "Data Updated"
                (updateResult (id_is query)
                   (fun l => default l (set_lesson updateData l)) lessons)),
           lessons')
      | None =>
          (mkResponse 400
             (Failure "Can't update data to database" MongoServerError),
           lessons)
      end
  end.

(** GET /lessons/most-favorites.  The sort key ["favorites.length"] names
    the field [length] of the documents inside [favorites]; its entries are
    texts, so every lesson sorts with a missing key. *)
Definition get_lessons_most_favorites (lessons : list Lesson.t) : Answer :=
  let lessons :=
    firstn 6
      (sort_desc_by (fun _ _ : Lesson.t => true)
         (List.filter (fun l => field_is "public" (Lesson.visibility l))
            lessons)) in
  mkAnswer 200 (LessonList lessons).

(** [{ _id: new ObjectId(id) }] on users *)
Definition user_id_is (k : Key) (u : User.t) : bool :=
  bool_decide (User._id u = Some k).

(** [$set: body] on a user, the body being the fields it carries; the store
    rejects a body whose [_id] is not the record's own. *)
Definition set_user (body : User.t) (u : User.t) : option User.t :=
  match User._id body with
  | Some k => if decide (Some k = User._id u) then Some tt else None
  | None => Some tt
  end ≫= fun _ =>
  Some (User.mk (User._id u)
          (set_field (User.email body) (User.email u))
          (set_field (User.name body) (User.name u))
          (set_field (User.photoURL body) (User.photoURL u))
          (set_field (User.role body) (User.role u))
          (set_field (User.isPremium body) (User.isPremium u))
          (set_field (User.transactionId body) (User.transactionId u))
          (set_field (User.create_at body) (User.create_at u))).

(** Order on [create_at], a missing one lowest. *)
Definition create_at_leb (a b : User.t) : bool :=
  match User.create_at a, User.create_at b with
  | None, _ => true
  | Some _, None => false
  | Some x, Some y => (x <=? y)%Z
  end.

(** GET /users, for the principal [email]: [{ email: { $ne: email } }]. *)
Definition get_users (email : string) (users : list User.t) : Answer :=
  let query (u : User.t) := negb (email_is (Some email) u) in
  mkAnswer 200
    (UserList "all users" (sort_desc_by create_at_leb (List.filter query users))).

(** PATCH /users, for the principal [email]. *)
Definition patch_users (email : string) (body : User.t) (users : list User.t)
  : Response * list User.t :=
  let query :=
    if truthy (Some email) then email_is (Some email) else fun _ => true in
  match updateOne_checked query (set_user body) users with
  | Some users' =>
      (mkResponse 200
         (Updated "Update Profile"
            (updateResult query (fun u => default u (set_user body u)) users)),
       users')
  | None =>
      (mkResponse 400 (Failure "Failed to update profile" MongoServerError),
       users)
  end.

(** PATCH /user/:id, behind verifyJWT and verifyAdmin. *)
Definition patch_user_id (body : User.t) (id : string) (users : list User.t)
  : Response * list User.t :=
  match ObjectId id with
  | None =>
      (mkResponse 400 (Failure "Failed to update profile" BSONError), users)
  | Some k =>
      match updateOne_checked (user_id_is k) (set_user body) users with
      | Some users' =>
          (mkResponse 200
             (Updated "Update Profile"
                (updateResult (user_id_is k)
                   (fun u => default u (set_user body u)) users)),
           users')
      | None =>
          (mkResponse 400 (Failure "Failed to update profile" MongoServerError),
           users)
      end
  end.

Section Routes.
Variable verifyIdToken : string -> option string.

(** [app.patch(path, verifyJWT, verifyAdmin, handler)] on the users. *)
Definition behind_admin (users : list User.t) (req : Request)
  (handler : Request -> Response * list User.t) : Response * list User.t :=
  match verifyJWT verifyIdToken req with
  | Respond res => (res, users)
  | Next req1 =>
      match verifyAdmin users req1 with
      | Respond res => (res, users)
      | Next req2 => handler req2
      end
  end.

Definition route_patch_user_id (authorization : option string) (body : User.t)
  (id : string) (users : list User.t) : Response * list User.t :=
  behind_admin users (incoming authorization)
    (fun _ => patch_user_id body id users).

End Routes.

Section Checkout.
(** [stripe.checkout.sessions.create] for a customer email: the session's
    url, [None] when the gateway throws. *)
Variable create : option string -> option string.

(** POST /create-checkout-session, for the principal [email]. *)
Definition post_create_checkout_session (email : string) : Answer :=
  match create (Some email) with
  | Some url => mkAnswer 200 (CheckoutUrl url)
  | None =>
      mkAnswer 500 (FailedText "Failed to create Stripe checkout session")
  end.

End Checkout.

(** Whether a text holds a space. *)
Fixpoint has_space (s : string) : bool :=
  match s with
  | EmptyString => false
  | String c rest => Ascii.eqb c " "%char || has_space rest
  end.

(** [GET /public-lessons?skip=s&limit=l] with the filters of [rq]. *)
Definition page_of (rq : Params.t) (s l : Z) : Params.t :=
  Params.mk (Some l) (Some s) (Params.category rq) (Params.visibility rq)
    (Params.search rq).

(** A lesson with its favorites taken away. *)
Definition without_favorites (l : Lesson.t) : Lesson.t :=
  Lesson.mk (Lesson._id l) (Lesson.title l) (Lesson.category l)
    (Lesson.visibility l) (Lesson.accessLevel l) (Lesson.createdAt l)
    (Lesson.likes l) None (Lesson.comments l).

(** ** Further routes of the earlier revisions *)

Module IndexJsCheckout.
Section Checkout.
Variable create : option string -> option string.

(** src/index.js destructures the email out of [req.decodedEmail]:
    [const { email } = req.decodedEmail].  That throws on undefined, and
    finds no [email] in a text. *)
Definition post_create_checkout_session (req : Request) : Answer :=
  let failed :=
    mkAnswer 500 (FailedText "Failed to create Stripe checkout session") in
  match decodedEmail req with
  | None => failed
  | Some _ =>
      match create None with
      | Some url => mkAnswer 200 (CheckoutUrl url)
      | None => failed
      end
  end.

End Checkout.
End IndexJsCheckout.

Module ReportsLessons.
(** The same revision lists every lesson on GET /public-lessons and has a
    like route that only adds. *)
Definition get_public_lessons (lessons : list Lesson.t) : Answer :=
  mkAnswer 200 (AllLessons "All lessons" (sort_createdAt_desc lessons)).

Definition patch_lesson_likes (email id : string) (lessons : list Lesson.t)
  : Response * list Lesson.t :=
  match ObjectId id with
  | None => (mkResponse 400 (Failure "Failed to add  Like" BSONError), lessons)
  | Some query =>
      let update := update_likes (addToSet email) in
      (mkResponse 200
         (Updated "Like add successfully"
            (updateResult (id_is query) update lessons)),
       updateOne (id_is query) update lessons)
  end.
End ReportsLessons.

(** ** Sample data *)

Module Sample.
(** A store whose regular-expression engine rejects every pattern; the
    samples below never search. *)
Definition no_regex (pattern : string) : option (string -> bool) := None.

Definition lesson (k : N) (visibility : string) : Lesson.t :=
  Lesson.mk (KObjectId k) (Some "On patience") (Some "Growth")
    (Some visibility) (Some "free") (Some (Text "2025-01-10T09:00:00.000Z"))
    None None None.

Definition public_lesson : Lesson.t := lesson 1 "public".
Definition private_lesson : Lesson.t := lesson 2 "private".

(** The route parameter of lesson 1, and a lesson two principals like. *)
Definition lesson_1_id : string := "000000000000000000000001".

Definition liked_lesson : Lesson.t :=
  Lesson.mk (KObjectId 1) (Some "On patience") (Some "Growth")
    (Some "public") (Some "free") (Some (Text "2025-01-10T09:00:00.000Z"))
    (Some ["a@x.com"; "b@x.com"]) None None.

(** Registration payloads: a plain one, and one that asks for more. *)
Definition ann_payload : User.t :=
  User.mk None (Some "a@x.com") (Some "Ann") None None None None None.

Definition eve_payload : User.t :=
  User.mk None (Some "e@x.com") (Some "Eve") None (Some "admin") (Some true)
    None None.

(** Stored users: an administrator, a user whose role was set to the empty
    text through a profile update, and a plain user. *)
Definition admin_record : User.t :=
  User.mk (Some (KObjectId 10)) (Some "admin@x.com") (Some "Root") None
    (Some "admin") None None (Some 1736400000000%Z).

Definition blank_role_record : User.t :=
  User.mk (Some (KObjectId 11)) (Some "b@x.com") (Some "Bob") None
    (Some "") None None (Some 1736400000000%Z).

Definition ann_record : User.t :=
  User.mk (Some (KObjectId 12)) (Some "a@x.com") (Some "Ann") None
    (Some "user") None None (Some 1736400000000%Z).

(** An identity verifier that knows one token, the administrator's. *)
Definition verifier (token : string) : option string :=
  if String.eqb token "token-of-admin" then Some "admin@x.com" else None.

(** A gateway that knows one session, paid by Ann. *)
Definition gateway (sessionId : string) : option CheckoutSession :=
  if String.eqb sessionId "cs_1"
  then Some (mkCheckoutSession (Some "pi_1") "paid" (Some (Some "a@x.com")))
  else None.

(** GET /public-lessons?visibility=private *)
Definition ask_private : Params.t :=
  Params.mk None None None (Some "private") None.

(** GET /public-lessons?limit=0 *)
Definition ask_limit_0 : Params.t :=
  Params.mk (Some 0%Z) None None None None.

(** GET /public-lessons?limit=2&skip=0 *)
Definition ask_limit_2 : Params.t :=
  Params.mk (Some 2%Z) (Some 0%Z) None None None.
End Sample.

Module Scenario.
(** PATCH /users with body [{ role: "admin" }]. *)
Definition role_admin_body : User.t :=
  User.mk None None None None (Some "admin") None None None.

(** PATCH /user/:id with body [{ name: "Bob B." }], and Bob's route
    parameter. *)
Definition rename_body : User.t :=
  User.mk None None (Some "Bob B.") None None None None None.

Definition bob_id : string := "00000000000000000000000b".

(** PATCH /lessons/:id with body [{ title: "On rest", visibility: "private" }]. *)
Definition retitle_body : LessonPatch.t :=
  LessonPatch.mk None (Some "On rest") None (Some "private") None None None
    None None.

(** A public lesson dated by the store, and [Sample.liked_lesson] with a
    principal's favorite on it. *)
Definition dated_lesson (k : N) (ms : Z) : Lesson.t :=
  Lesson.mk (KObjectId k) (Some "On rest") None (Some "public") (Some "free")
    (Some (Date ms)) None None None.

Definition favorite_lesson : Lesson.t :=
  Lesson.mk (KObjectId 1) (Some "On patience") (Some "Growth")
    (Some "public") (Some "free") (Some (Text "2025-01-10T09:00:00.000Z"))
    (Some ["a@x.com"; "b@x.com"]) (Some ["a@x.com"]) None.

(** A gateway session that is paid by someone who never registered. *)
Definition stranger_gateway (sessionId : string) : option CheckoutSession :=
  if String.eqb sessionId "cs_2"
  then Some (mkCheckoutSession (Some "pi_2") "paid" (Some (Some "z@x.com")))
  else None.

(** Five public lessons, no two created at the same instant, in the order
    they were stored. *)
Definition five_dated_lessons : list Lesson.t :=
  [dated_lesson 1 1736500000001; dated_lesson 2 1736500000002;
   dated_lesson 3 1736500000003; dated_lesson 4 1736500000004;
   dated_lesson 5 1736500000005].

(** A gateway with two paid sessions of the same customer, Ann. *)
Definition two_payments_gateway (sessionId : string)
  : option CheckoutSession :=
  if String.eqb sessionId "cs_1"
  then Some (mkCheckoutSession (Some "pi_1") "paid" (Some (Some "a@x.com")))
  else if String.eqb sessionId "cs_2"
  then Some (mkCheckoutSession (Some "pi_2") "paid" (Some (Some "a@x.com")))
  else None.

(** A checkout gateway that always opens a session. *)
Definition open_gateway (customer_email : option string) : option string :=
  Some "https://checkout.example/session".
End Scenario.

(** * Properties *)

(** ** The store *)

Section CollectionFacts.
Context {A : Type} `{EqDecision A}.
Variable q : A -> bool.

Lemma findOne_None_Forall (c : list A) :
  findOne q c = None <-> Forall (fun d => q d = false) c.
Proof.
  unfold findOne. induction c as [|d c IH]; simpl.
  - split; auto.
  - destruct (q d) eqn:Hd.
    + split; [discriminate|]. intros HF. inversion HF; congruence.
    + rewrite IH. split; [constructor; auto|]. intros HF. now inversion HF.
Qed.

Lemma findOne_Some (c : list A) (d : A) :
  findOne q c = Some d -> In d c /\ q d = true.
Proof. apply find_some. Qed.

(** An update that matches no document changes nothing. *)
Lemma updateOne_unmatched (u : A -> A) (c : list A) :
  findOne q c = None -> updateOne q u c = c.
Proof.
  unfold findOne. induction c as [|d c IH]; simpl; [reflexivity|].
  destruct (q d); [discriminate|]. intros Hc. now rewrite IH.
Qed.

Lemma updateResult_unmatched (u : A -> A) (c : list A) :
  findOne q c = None -> updateResult q u c = mkUpdateResult 0 0.
Proof. unfold updateResult. now intros ->. Qed.

(** An update rewrites exactly the document [findOne] returns. *)
Lemma updateOne_matched (u : A -> A) (c : list A) (d : A) :
  findOne q c = Some d ->
  exists before after,
    c = before ++ d :: after
    /\ updateOne q u c = before ++ u d :: after
    /\ Forall (fun x => q x = false) before.
Proof.
  unfold findOne. induction c as [|x c IH]; simpl; [discriminate|].
  destruct (q x) eqn:Hx.
  - intros [= ->]. exists [], c. repeat split. constructor.
  - intros Hc. destruct (IH Hc) as (b & a & -> & Hu & Hb).
    exists (x :: b), a. rewrite Hu. repeat split. now constructor.
Qed.

Lemma findOne_app_unmatched (before after : list A) :
  Forall (fun x => q x = false) before ->
  findOne q (before ++ after) = findOne q after.
Proof.
  unfold findOne. induction 1 as [|x b Hx _ IH]; simpl; [reflexivity|].
  now rewrite Hx.
Qed.

Lemma findOne_at (before after : list A) (d : A) :
  Forall (fun x => q x = false) before ->
  q d = true ->
  findOne q (before ++ d :: after) = Some d.
Proof.
  intros Hb Hd. rewrite findOne_app_unmatched by assumption.
  unfold findOne. simpl. now rewrite Hd.
Qed.

Lemma updateOne_at (u : A -> A) (before after : list A) (d : A) :
  Forall (fun x => q x = false) before ->
  q d = true ->
  updateOne q u (before ++ d :: after) = before ++ u d :: after.
Proof.
  intros Hb Hd. induction Hb as [|x b Hx _ IH]; simpl.
  - now rewrite Hd.
  - now rewrite Hx, IH.
Qed.

Lemma countDocuments_length (c : list A) :
  countDocuments q c = length (List.filter q c).
Proof. reflexivity. Qed.

End CollectionFacts.

(** ** Public listing *)

Lemma insert_desc_perm (x : Lesson.t) (c : list Lesson.t) :
  Permutation (insert_desc x c) (x :: c).
Proof.
  induction c as [|y c IH]; simpl; [reflexivity|].
  destruct (createdAt_leb _ _); [reflexivity|].
  rewrite IH. apply perm_swap.
Qed.

(** Sorting rearranges the page, it neither adds nor drops a lesson. *)
Lemma sort_createdAt_desc_perm (c : list Lesson.t) :
  Permutation (sort_createdAt_desc c) c.
Proof.
  induction c as [|x c IH]; simpl; [reflexivity|].
  rewrite insert_desc_perm. now constructor.
Qed.

Lemma cursor_limit_Forall {A} (P : A -> Prop) (n : Z) (c : list A) :
  Forall P c -> Forall P (cursor_limit n c).
Proof.
  unfold cursor_limit. destruct (n =? 0)%Z; [auto|]. apply Forall_take.
Qed.

Lemma cursor_limit_length {A} (n : Z) (c : list A) :
  (0 < n)%Z -> (Z.of_nat (length (cursor_limit n c)) <= n)%Z.
Proof.
  intros Hn. unfold cursor_limit.
  destruct (Z.eqb_spec n 0) as [->|_]; [lia|].
  rewrite length_take. lia.
Qed.

Lemma filter_Forall {A} (p : A -> bool) (c : list A) :
  Forall (fun x => p x = true) (List.filter p c).
Proof.
  apply List.Forall_forall. intros x Hx. now apply filter_In in Hx.
Qed.

(** The visibility the filter document ends up with: the parameter when it
    is truthy, ["public"] otherwise. *)
Lemma build_query_visibility (rq : Params.t) :
  lq_visibility (build_query rq) =
  match Params.visibility rq with
  | Some v => if String.eqb v "" then "public" else v
  | None => "public"
  end.
Proof.
  unfold build_query.
  destruct (Params.visibility rq) as [v|]; simpl;
    destruct (truthy (Params.category rq)), (truthy (Params.search rq));
    simpl; try reflexivity; destruct (String.eqb v ""); reflexivity.
Qed.

Lemma lesson_matches_visibility regex_i query p l :
  lesson_matches regex_i query = Some p ->
  p l = true ->
  Lesson.visibility l = Some (lq_visibility query).
Proof.
  unfold lesson_matches, field_is.
  destruct (lq_title query) as [pattern|].
  - destruct (regex_i pattern); [|discriminate].
    intros [= <-] Hp.
    apply andb_prop in Hp as [Hp _]. apply andb_prop in Hp as [Hp _].
    now apply bool_decide_eq_true in Hp.
  - intros [= <-] Hp. apply andb_prop in Hp as [Hp _].
    now apply bool_decide_eq_true in Hp.
Qed.

(** How a successful listing is put together. *)
Lemma get_public_lessons_page regex_i rq lessons total result :
  get_public_lessons regex_i rq lessons = mkResponse 200 (Page total result) ->
  exists p,
    lesson_matches regex_i (build_query rq) = Some p
    /\ total = length (List.filter p lessons)
    /\ result =
       cursor_limit (default 6%Z (Params.limit rq))
         (drop (Z.to_nat (default 0%Z (Params.skip rq)))
            (sort_createdAt_desc (List.filter p lessons))).
Proof.
  unfold get_public_lessons.
  destruct (lesson_matches regex_i (build_query rq)) as [p|]; [|discriminate].
  destruct (default 0%Z (Params.skip rq) <? 0)%Z; [discriminate|].
  intros [= <- <-]. exists p. repeat split.
Qed.

(** The listing answers with a page whenever the store accepts the search
    pattern and [skip] is not negative. *)
Lemma get_public_lessons_responds regex_i rq lessons :
  (Params.search rq = None \/
   exists m, regex_i (default "" (Params.search rq)) = Some m) ->
  (0 <= default 0 (Params.skip rq))%Z ->
  exists total result,
    get_public_lessons regex_i rq lessons = mkResponse 200 (Page total result).
Proof.
  intros Hsearch Hskip. unfold get_public_lessons.
  assert (exists p, lesson_matches regex_i (build_query rq) = Some p) as [p ->].
  { unfold lesson_matches, build_query.
    destruct (truthy (Params.category rq)), (truthy (Params.visibility rq)),
      (truthy (Params.search rq)) eqn:Hs; simpl; eauto;
      destruct Hsearch as [Hn|[m Hm]];
      try (rewrite Hn in Hs; discriminate);
      destruct (Params.search rq) as [s|]; try discriminate;
      simpl in Hm; rewrite Hm; eauto. }
  destruct (Z.ltb_spec (default 0%Z (Params.skip rq)) 0); [lia|]. eauto.
Qed.

(** C1, amended: a successful GET /public-lessons lists only lessons whose
    visibility equals the [visibility] query parameter when one is supplied
    (a non-empty text), and only lessons with visibility ["public"] when it
    is absent or empty; [category], [search], [skip] and [limit] do not
    affect this. *)
Theorem public_lessons_visibility regex_i rq lessons total result :
  get_public_lessons regex_i rq lessons = mkResponse 200 (Page total result) ->
  Forall (fun l =>
            Lesson.visibility l =
            Some (match Params.visibility rq with
                  | Some v => if String.eqb v "" then "public" else v
                  | None => "public"
                  end))
         result.
Proof.
  intros Hres.
  destruct (get_public_lessons_page _ _ _ _ _ Hres) as (p & Hp & _ & ->).
  rewrite <- build_query_visibility.
  apply cursor_limit_Forall, Forall_drop.
  eapply Permutation_Forall.
  - symmetry. apply sort_createdAt_desc_perm.
  - eapply Forall_impl; [apply filter_Forall|].
    intros l. apply lesson_matches_visibility with (1 := Hp).
Qed.

Lemma public_lessons_visibility_witness :
  get_public_lessons Sample.no_regex Sample.ask_limit_2
    [Sample.private_lesson; Sample.public_lesson]
  = mkResponse 200 (Page 1 [Sample.public_lesson])
  /\ Forall (fun l => Lesson.visibility l = Some "public")
            [Sample.public_lesson].
Proof.
  split; [reflexivity|].
  exact (public_lessons_visibility Sample.no_regex Sample.ask_limit_2
           [Sample.private_lesson; Sample.public_lesson] 1
           [Sample.public_lesson] eq_refl).
Defined.

(** C1 as stated fails: with [visibility=private] the page holds a lesson
    that is not public. *)
Lemma public_lessons_lists_private :
  get_public_lessons Sample.no_regex Sample.ask_private
    [Sample.public_lesson; Sample.private_lesson]
  = mkResponse 200 (Page 1 [Sample.private_lesson])
  /\ Lesson.visibility Sample.private_lesson <> Some "public".
Proof. split; [reflexivity|discriminate]. Qed.

(** C7, amended: on a successful GET /public-lessons the total is the number
    of lessons matching the filter, whatever [skip] and [limit] are; for a
    positive [limit] (6 when absent) the page holds at most [limit] lessons;
    [limit=0] means no limit, the page then holds every match past the
    skipped ones. *)
Theorem public_lessons_pagination regex_i rq lessons total result :
  get_public_lessons regex_i rq lessons = mkResponse 200 (Page total result) ->
  (exists p,
      lesson_matches regex_i (build_query rq) = Some p
      /\ total = length (List.filter p lessons))
  /\ ((0 < default 6 (Params.limit rq))%Z ->
      (Z.of_nat (length result) <= default 6 (Params.limit rq))%Z)
  /\ (Params.limit rq = Some 0%Z ->
      length result = total - Z.to_nat (default 0%Z (Params.skip rq))).
Proof.
  intros Hres.
  destruct (get_public_lessons_page _ _ _ _ _ Hres) as (p & Hp & Ht & ->).
  split; [eauto|]. split; [apply cursor_limit_length|].
  intros ->. simpl. unfold cursor_limit. simpl.
  rewrite length_drop, Ht.
  now rewrite (Permutation_length (sort_createdAt_desc_perm _)).
Qed.

Lemma public_lessons_pagination_witness :
  get_public_lessons Sample.no_regex Sample.ask_limit_2
    (map (fun k => Sample.lesson k "public") [1; 2; 3; 4; 5]%N)
  = mkResponse 200
      (Page 5 [Sample.lesson 1 "public"; Sample.lesson 2 "public"])
  /\ (exists p,
        lesson_matches Sample.no_regex (build_query Sample.ask_limit_2) = Some p
        /\ 5 = length (List.filter p
                         (map (fun k => Sample.lesson k "public")
                              [1; 2; 3; 4; 5]%N)))
  /\ ((0 < 2)%Z -> (Z.of_nat 2 <= 2)%Z)
  /\ (Some 2%Z = Some 0%Z -> 2 = 5 - Z.to_nat 0).
Proof.
  split; [reflexivity|].
  exact (public_lessons_pagination Sample.no_regex Sample.ask_limit_2
           (map (fun k => Sample.lesson k "public") [1; 2; 3; 4; 5]%N) 5
           [Sample.lesson 1 "public"; Sample.lesson 2 "public"] eq_refl).
Defined.

(** C7 as stated fails at [limit=0], which the store reads as no limit:
    the page holds one lesson. *)
Lemma public_lessons_limit_0_unbounded :
  get_public_lessons Sample.no_regex Sample.ask_limit_0 [Sample.public_lesson]
  = mkResponse 200 (Page 1 [Sample.public_lesson])
  /\ ~ (Z.of_nat (length [Sample.public_lesson]) <= 0)%Z.
Proof. split; [reflexivity|simpl; lia]. Qed.

(** ** Like toggle *)










(** The set comes back, the array need not: the email that was first is
    last after two calls. *)
Lemma like_toggle_reorders_array :
  snd (patch_lesson_likes "a@x.com" Sample.lesson_1_id
         (snd (patch_lesson_likes "a@x.com" Sample.lesson_1_id
                 [Sample.liked_lesson])))
  = [Lesson.set_likes ["b@x.com"; "a@x.com"] Sample.liked_lesson].
Proof. reflexivity. Qed.


(** ** Comments *)

(** C10: a comment on a well-formed id that resolves to no lesson is
    answered 200 "Comment added successfully" and leaves the lessons
    collection as it was, in both revisions of the handler; no 404 is
    sent. *)
Theorem comment_on_missing_lesson now email comment name text id lessons k :
  ObjectId id = Some k ->
  findOne (id_is k) lessons = None ->
  patch_lesson_comments now email comment name id lessons
  = (mkResponse 200
       (Updated "Comment added successfully" (mkUpdateResult 0 0)),
     lessons)
  /\ Reports.patch_lesson_comments now email text id lessons
     = (mkResponse 200
          (Updated "Comment added successfully" (mkUpdateResult 0 0)),
        lessons).
Proof.
  intros Hid Hfind.
  unfold patch_lesson_comments, Reports.patch_lesson_comments.
  rewrite Hid.
  now rewrite !(updateOne_unmatched _ _ _ Hfind),
    !(updateResult_unmatched _ _ _ Hfind).
Qed.

Lemma comment_on_missing_lesson_witness :
  ObjectId Sample.lesson_1_id = Some (KObjectId 1)
  /\ findOne (id_is (KObjectId 1)) [Sample.private_lesson] = None
  /\ patch_lesson_comments 1736500000000 "a@x.com" (Some "Thanks") (Some "Ann")
       Sample.lesson_1_id [Sample.private_lesson]
     = (mkResponse 200
          (Updated "Comment added successfully" (mkUpdateResult 0 0)),
        [Sample.private_lesson])
  /\ Reports.patch_lesson_comments 1736500000000 "a@x.com" (Some "Thanks")
       Sample.lesson_1_id [Sample.private_lesson]
     = (mkResponse 200
          (Updated "Comment added successfully" (mkUpdateResult 0 0)),
        [Sample.private_lesson]).
Proof.
  split; [reflexivity|]. split; [reflexivity|].
  exact (comment_on_missing_lesson 1736500000000 "a@x.com" (Some "Thanks")
           (Some "Ann") (Some "Thanks") Sample.lesson_1_id
           [Sample.private_lesson] (KObjectId 1) eq_refl eq_refl).
Defined.

(** On a lesson the id resolves to, the comment goes to the end of its
    sequence and nothing before it moves. *)
Lemma comment_appended now email comment name id k before lesson after :
  ObjectId id = Some k ->
  Forall (fun x => id_is k x = false) before ->
  id_is k lesson = true ->
  snd (patch_lesson_comments now email comment name id
         (before ++ lesson :: after))
  = before
    ++ Lesson.set_comments
         (default [] (Lesson.comments lesson)
          ++ [Comment.Named name email comment now]) lesson
    :: after.
Proof.
  intros Hid Hb Hk. unfold patch_lesson_comments. rewrite Hid. simpl.
  now rewrite (updateOne_at _ _ _ _ _ Hb Hk).
Qed.

(** ** Access-level analytics *)

(** The count a level has among the groups, 0 when it has no group. *)
Lemma group_add_find (k k' : option string) (groups : list Group) :
  let count gs :=
    match List.find (fun d => bool_decide (g_id d = k)) gs with
    | Some d => g_count d
    | None => 0
    end in
  count (group_add k' groups)
  = count groups + (if decide (k' = k) then 1 else 0).
Proof.
  simpl. induction groups as [|g groups IH]; simpl.
  - destruct (decide (k' = k)) as [->|Hne].
    + now rewrite bool_decide_eq_true_2.
    + now rewrite bool_decide_eq_false_2.
  - destruct (decide (g_id g = k')) as [Hg|Hg]; simpl.
    + destruct (decide (k' = k)) as [->|Hne].
      * rewrite !bool_decide_eq_true_2 by auto. simpl. lia.
      * rewrite !bool_decide_eq_false_2 by congruence. lia.
    + destruct (bool_decide (g_id g = k)) eqn:Hgk.
      * apply bool_decide_eq_true in Hgk.
        rewrite decide_False by congruence. lia.
      * exact IH.
Qed.

Lemma group_by_accessLevel_find (level : string) (c : list Lesson.t) :
  match List.find (fun d => bool_decide (g_id d = Some level))
          (group_by_accessLevel c) with
  | Some d => g_count d
  | None => 0
  end = count_level level c.
Proof.
  unfold group_by_accessLevel, count_level.
  enough (forall groups,
      match List.find (fun d => bool_decide (g_id d = Some level))
              (fold_left (fun gs l => group_add (Lesson.accessLevel l) gs)
                 c groups) with
      | Some d => g_count d
      | None => 0
      end
      = match List.find (fun d => bool_decide (g_id d = Some level)) groups with
        | Some d => g_count d
        | None => 0
        end
        + length (List.filter (fun l => field_is level (Lesson.accessLevel l)) c))
    as Hgen by (rewrite Hgen; reflexivity).
  induction c as [|l c IH]; intros groups; simpl; [lia|].
  rewrite IH.
  rewrite (group_add_find (Some level) (Lesson.accessLevel l) groups).
  unfold field_is.
  destruct (decide (Lesson.accessLevel l = Some level)) as [Heq|Hne].
  - rewrite bool_decide_eq_true_2 by assumption. simpl. lia.
  - rewrite bool_decide_eq_false_2 by assumption. lia.
Qed.

(** C9: whatever the lessons collection holds, GET /analytics/accessLevel
    answers with exactly two entries, ["free"] then ["premium"], each with
    the number of public lessons of the seven-day window at that level, which
    is 0 when there is none. *)
Theorem accessLevel_both_levels now_end now_start lessons :
  let recent :=
    match_recent_public (startOfUTCDay (now_start - 6 * day_ms))
      (endOfUTCDay now_end) lessons in
  get_analytics_accessLevel now_end now_start lessons
  = mkResponse 200
      (Levels [mkLevelCount "free" (count_level "free" recent);
               mkLevelCount "premium" (count_level "premium" recent)]).
Proof.
  simpl. unfold get_analytics_accessLevel. simpl.
  now rewrite !group_by_accessLevel_find.
Qed.

(** One free public lesson dated inside the window: free 1, premium 0.
    A lesson whose [createdAt] is a text is outside every window. *)
Lemma accessLevel_sample :
  get_analytics_accessLevel 1736500000000 1736500000000
    [Lesson.mk (KObjectId 3) (Some "On rest") None (Some "public")
       (Some "free") (Some (Date 1736400000000)) None None None;
     Sample.public_lesson]
  = mkResponse 200
      (Levels [mkLevelCount "free" 1; mkLevelCount "premium" 0]).
Proof. reflexivity. Qed.

(** With no lesson at all both entries are still there, at 0. *)
Lemma accessLevel_empty_store now_end now_start :
  get_analytics_accessLevel now_end now_start []
  = mkResponse 200
      (Levels [mkLevelCount "free" 0; mkLevelCount "premium" 0]).
Proof. reflexivity. Qed.

(** ** Registration and role lookup *)

Lemma insertOne_appends doc users k users' :
  insertOne doc users = Some (k, users') ->
  users' = users ++ [User.set_id k doc].
Proof.
  unfold insertOne. destruct (User._id doc) as [k0|] eqn:Hk.
  - destruct (List.existsb _ users); [discriminate|].
    intros [= <- <-]. destruct doc. simpl in *. now subst.
  - now intros [= <- <-].
Qed.

(** A payload without [_id] is always stored. *)
Lemma insertOne_fresh doc users :
  User._id doc = None -> exists k users', insertOne doc users = Some (k, users').
Proof. unfold insertOne. intros ->. eauto. Qed.

(** So is a payload whose [_id] no stored record bears. *)
Lemma insertOne_unused doc users :
  User._id doc = None \/ Forall (fun u => User._id u <> User._id doc) users ->
  exists k, insertOne doc users = Some (k, users ++ [User.set_id k doc]).
Proof.
  unfold insertOne. intros [Hnone|Hfree].
  - rewrite Hnone. eauto.
  - destruct (User._id doc) as [k|] eqn:Hk; [|eauto].
    replace (List.existsb _ users) with false.
    + exists k. destruct doc. simpl in *. now subst.
    + symmetry. apply not_true_is_false. intros Hex.
      apply existsb_exists in Hex as (u & Hu & Hd).
      apply bool_decide_eq_true in Hd.
      rewrite List.Forall_forall in Hfree. now apply (Hfree u Hu).
Qed.

(** What registration does when the payload's email is taken. *)
Lemma post_users_existing now body users existing :
  findOne (email_is (User.email body)) users = Some existing ->
  post_users now body users
  = (mkResponse 200 (UserExists "User already exists" existing), users).
Proof. unfold post_users. simpl. now intros ->. Qed.

(** What registration does when the payload's email is free. *)
Lemma post_users_new now body users :
  findOne (email_is (User.email body)) users = None ->
  (exists k,
      post_users now body users
      = (mkResponse 201 (Stored "Data is stored to database" k),
         users ++ [User.set_id k (User.set_role "user"
                                    (User.set_create_at now body))]))
  \/ (User._id body <> None
      /\ post_users now body users
         = (mkResponse 400
              (Failure "Can't store users data to database" MongoServerError),
            users)).
Proof.
  intros Hfind. unfold post_users. simpl. rewrite Hfind.
  destruct (insertOne _ users) as [[k users']|] eqn:Hins.
  - left. exists k. now rewrite (insertOne_appends _ _ _ _ Hins).
  - right. split; [|reflexivity].
    unfold insertOne in Hins. simpl in Hins.
    destruct (User._id body); [discriminate|discriminate].
Qed.

(** C3: registration is idempotent by email.  When a record with the
    payload's email exists the call answers 200 with that record and leaves
    the collection as it was; in particular a second registration right
    after a first one returns the record the first one stored.  A collection
    without two records of one email stays so under registration. *)
Theorem registration_idempotent now body users :
  (forall existing,
      findOne (email_is (User.email body)) users = Some existing ->
      post_users now body users
      = (mkResponse 200 (UserExists "User already exists" existing), users))
  /\ (forall k users' now2 body2,
        post_users now body users
        = (mkResponse 201 (Stored "Data is stored to database" k), users') ->
        User.email body2 = User.email body ->
        exists stored,
          In stored users'
          /\ User.email stored = User.email body
          /\ post_users now2 body2 users'
             = (mkResponse 200 (UserExists "User already exists" stored),
                users'))
  /\ (NoDup (map User.email users) ->
      NoDup (map User.email (snd (post_users now body users)))).
Proof.
  split; [|split].
  - intros existing. apply post_users_existing.
  - intros k users' now2 body2 Hpost Heq.
    destruct (findOne (email_is (User.email body)) users) as [u|] eqn:Hfind.
    + rewrite (post_users_existing _ _ _ _ Hfind) in Hpost. discriminate.
    + destruct (post_users_new now body users Hfind)
        as [[k' Hnew]|[_ Hfail]]; rewrite Hpost in *; [|discriminate].
      injection Hnew as _ ->.
      set (stored := User.set_id k' _).
      exists stored. split; [apply in_or_app; right; now left|].
      split; [reflexivity|].
      apply post_users_existing. rewrite Heq.
      apply findOne_at; [now apply findOne_None_Forall|].
      unfold email_is. now apply bool_decide_eq_true_2.
  - intros Hnodup.
    destruct (findOne (email_is (User.email body)) users) as [u|] eqn:Hfind.
    + now rewrite (post_users_existing _ _ _ _ Hfind).
    + destruct (post_users_new now body users Hfind)
        as [[k Hnew]|[_ Hfail]]; [rewrite Hnew|now rewrite Hfail].
      simpl. rewrite map_app. simpl.
      apply NoDup_app. split; [exact Hnodup|]. split.
      * intros e He [<-|[]]%list_elem_of_In.
        apply list_elem_of_In, in_map_iff in He as (u & Hue & Hu).
        apply findOne_None_Forall in Hfind.
        rewrite List.Forall_forall in Hfind. specialize (Hfind u Hu).
        unfold email_is in Hfind. apply bool_decide_eq_false in Hfind.
        contradiction.
      * apply NoDup_singleton.
Qed.

Lemma registration_idempotent_witness :
  findOne (email_is (User.email Sample.ann_payload)) [Sample.ann_record]
  = Some Sample.ann_record
  /\ post_users 1736500000000 Sample.ann_payload [Sample.ann_record]
     = (mkResponse 200 (UserExists "User already exists" Sample.ann_record),
        [Sample.ann_record]).
Proof.
  split; [reflexivity|].
  exact (proj1 (registration_idempotent 1736500000000 Sample.ann_payload
                  [Sample.ann_record])
           Sample.ann_record eq_refl).
Defined.

(** C6, amended: when the payload's email has no record and the payload
    brings no [_id], or one no record bears, registration answers 201;
    whenever it answers 201 it
    has appended one record, with role ["user"] and the creation timestamp
    whatever role the payload carried, and with the payload's [isPremium]
    untouched, so the stored flag reads false when the payload carries
    none or false. *)
Theorem registration_defaults now body users :
  findOne (email_is (User.email body)) users = None ->
  (User._id body = None
   \/ Forall (fun u => User._id u <> User._id body) users ->
   status (fst (post_users now body users)) = 201)
  /\ (status (fst (post_users now body users)) = 201 ->
      exists stored,
        snd (post_users now body users) = users ++ [stored]
        /\ User.role stored = Some "user"
        /\ User.create_at stored = Some now
        /\ User.email stored = User.email body
        /\ User.isPremium stored = User.isPremium body
        /\ (User.isPremium body <> Some true ->
            or_false (User.isPremium stored) = false)).
Proof.
  intros Hfind.
  destruct (post_users_new now body users Hfind) as [[k Hnew]|[Hid Hfail]].
  - rewrite Hnew. simpl. split; [reflexivity|]. intros _.
    eexists. split; [reflexivity|]. simpl. repeat split.
    intros Hp. now destruct (User.isPremium body) as [[]|].
  - rewrite Hfail. simpl. split; [|discriminate].
    intros [Hnone|Hfree]; [contradiction|]. exfalso.
    destruct (insertOne_unused
                (User.set_role "user" (User.set_create_at now body)) users
                (or_intror Hfree)) as [k Hk].
    revert Hfail. unfold post_users. simpl. rewrite Hfind, Hk. discriminate.
Qed.

Lemma registration_defaults_witness :
  findOne (email_is (User.email Sample.ann_payload)) [Sample.admin_record]
  = None
  /\ status (fst (post_users 1736500000000 Sample.ann_payload
                    [Sample.admin_record])) = 201
  /\ exists stored,
       snd (post_users 1736500000000 Sample.ann_payload [Sample.admin_record])
       = [Sample.admin_record] ++ [stored]
       /\ User.role stored = Some "user"
       /\ User.create_at stored = Some 1736500000000%Z
       /\ User.email stored = User.email Sample.ann_payload
       /\ User.isPremium stored = User.isPremium Sample.ann_payload
       /\ (User.isPremium Sample.ann_payload <> Some true ->
           or_false (User.isPremium stored) = false).
Proof.
  split; [reflexivity|]. split; [reflexivity|].
  exact (proj2 (registration_defaults 1736500000000 Sample.ann_payload
                  [Sample.admin_record] eq_refl)
           eq_refl).
Defined.

(** C6 as stated fails on a payload that carries [isPremium: true]: the
    stored record has role ["user"] but is premium, and role lookup says
    so. *)
Lemma registration_keeps_payload_premium :
  exists stored,
    post_users 1736500000000 Sample.eve_payload []
    = (mkResponse 201 (Stored "Data is stored to database" (KObjectId 1)),
       [stored])
    /\ User.role stored = Some "user"
    /\ User.isPremium stored = Some true
    /\ get_users_role "e@x.com" [stored]
       = mkResponse 200 (RoleInfo "user" true).
Proof. eexists. repeat split. Qed.

(** C8, amended: role lookup always answers 200.  Without a record for
    the email the role is ["user"] and the premium flag false.  With one,
    the role is the record's when that is a non-empty text and ["user"] when
    the field is absent or empty, and the flag is the record's, false when
    absent. *)
Theorem role_lookup_defaults email users :
  exists role isPremium,
    get_users_role email users = mkResponse 200 (RoleInfo role isPremium)
    /\ (findOne (email_is (Some email)) users = None ->
        role = "user" /\ isPremium = false)
    /\ (forall u,
          findOne (email_is (Some email)) users = Some u ->
          role = match User.role u with
                 | Some r => if String.eqb r "" then "user" else r
                 | None => "user"
                 end
          /\ isPremium = match User.isPremium u with
                         | Some b => b
                         | None => false
                         end).
Proof.
  unfold get_users_role. do 2 eexists. split; [reflexivity|].
  destruct (findOne (email_is (Some email)) users) as [u|]; simpl.
  - split; [discriminate|]. intros ? [= <-]. split.
    + unfold or_string, truthy.
      destruct (User.role u) as [r|]; simpl; [|reflexivity].
      now destruct (String.eqb r "").
    + now destruct (User.isPremium u) as [[]|].
  - split; [now intros _|discriminate].
Qed.

Lemma role_lookup_defaults_witness :
  get_users_role "admin@x.com" [Sample.ann_record; Sample.admin_record]
  = mkResponse 200 (RoleInfo "admin" false)
  /\ get_users_role "nobody@x.com" [Sample.ann_record; Sample.admin_record]
     = mkResponse 200 (RoleInfo "user" false).
Proof.
  destruct (role_lookup_defaults "admin@x.com"
              [Sample.ann_record; Sample.admin_record])
    as (r1 & p1 & H1 & _ & Hsome).
  destruct (role_lookup_defaults "nobody@x.com"
              [Sample.ann_record; Sample.admin_record])
    as (r2 & p2 & H2 & Hnone & _).
  destruct (Hsome Sample.admin_record eq_refl) as [-> ->].
  destruct (Hnone eq_refl) as [-> ->].
  split; assumption.
Defined.

(** C8 as stated fails on a record whose role is the empty text: the
    lookup answers ["user"], not the record's role. *)
Lemma role_lookup_blank_role :
  findOne (email_is (Some "b@x.com")) [Sample.blank_role_record]
  = Some Sample.blank_role_record
  /\ User.role Sample.blank_role_record = Some ""
  /\ get_users_role "b@x.com" [Sample.blank_role_record]
     = mkResponse 200 (RoleInfo "user" false)
  /\ "user" <> "".
Proof. repeat split. discriminate. Qed.

(** ** Payment reconciliation *)

Lemma findOne_is_Some {A} (q : A -> bool) (c : list A) (d : A) :
  In d c -> q d = true -> exists d', findOne q c = Some d'.
Proof.
  intros Hin Hq. destruct (findOne q c) as [d'|] eqn:Hfind; [eauto|].
  apply findOne_None_Forall in Hfind.
  rewrite List.Forall_forall in Hfind. rewrite (Hfind d Hin) in Hq.
  discriminate.
Qed.

(** A replay on a session whose transaction id some record bears. *)
Lemma patch_session_status_replay retrieve sessionId session users existing :
  retrieve sessionId = Some session ->
  findOne (transactionId_is (payment_intent session)) users = Some existing ->
  patch_session_status retrieve sessionId users
  = (Some (mkResponse 200
             (AlreadyProcessed "Payment already processed"
                (payment_intent session))),
     users).
Proof. intros Hs Hf. unfold patch_session_status. now rewrite Hs, Hf. Qed.

(** A session that is not paid changes nothing and is not answered. *)
Lemma patch_session_status_unpaid retrieve sessionId session users :
  retrieve sessionId = Some session ->
  findOne (transactionId_is (payment_intent session)) users = None ->
  payment_status session <> "paid" ->
  patch_session_status retrieve sessionId users = (None, users).
Proof.
  intros Hs Hf Hp. unfold patch_session_status. rewrite Hs, Hf.
  now destruct (String.eqb_spec (payment_status session) "paid").
Qed.

(** A paid session no record bears the transaction id of. *)
Lemma patch_session_status_paid retrieve sessionId session users email :
  retrieve sessionId = Some session ->
  findOne (transactionId_is (payment_intent session)) users = None ->
  payment_status session = "paid" ->
  customer_details session = Some email ->
  patch_session_status retrieve sessionId users
  = (Some (mkResponse 200
             (Reconciled (payment_intent session)
                (updateResult (email_is email)
                   (User.set_premium (payment_intent session)) users))),
     updateOne (email_is email) (User.set_premium (payment_intent session))
       users).
Proof.
  intros Hs Hf Hp Hc. unfold patch_session_status.
  now rewrite Hs, Hf, Hp, Hc.
Qed.

(** C2, amended: reconciliation is idempotent while the marker lasts.  For
    a session whose transaction id some user record bears, the call answers
    "Payment already processed" (success: false) and leaves the users as
    they were.  A call changes the users only when the session is "paid" and
    no record bears its transaction id at that moment; it then sets
    [isPremium] and the transaction id on the one record with the customer's
    email, and a replay right after it is answered "Payment already
    processed" without a change. *)
Theorem session_status_idempotent retrieve sessionId session users :
  retrieve sessionId = Some session ->
  (forall existing,
      findOne (transactionId_is (payment_intent session)) users
      = Some existing ->
      patch_session_status retrieve sessionId users
      = (Some (mkResponse 200
                 (AlreadyProcessed "Payment already processed"
                    (payment_intent session))),
         users))
  /\ (snd (patch_session_status retrieve sessionId users) <> users ->
      payment_status session = "paid"
      /\ findOne (transactionId_is (payment_intent session)) users = None
      /\ (exists email before u after,
            customer_details session = Some email
            /\ findOne (email_is email) users = Some u
            /\ users = before ++ u :: after
            /\ snd (patch_session_status retrieve sessionId users)
               = before ++ User.set_premium (payment_intent session) u :: after)
      /\ patch_session_status retrieve sessionId
           (snd (patch_session_status retrieve sessionId users))
         = (Some (mkResponse 200
                    (AlreadyProcessed "Payment already processed"
                       (payment_intent session))),
            snd (patch_session_status retrieve sessionId users))).
Proof.
  intros Hs. split.
  - intros existing. now apply patch_session_status_replay.
  - intros Hchanged.
    destruct (findOne (transactionId_is (payment_intent session)) users)
      as [existing|] eqn:Hmark.
    { rewrite (patch_session_status_replay _ _ _ _ _ Hs Hmark) in Hchanged.
      contradiction. }
    destruct (String.eqb_spec (payment_status session) "paid") as [Hpaid|Hno].
    2: { rewrite (patch_session_status_unpaid _ _ _ _ Hs Hmark Hno) in Hchanged.
         contradiction. }
    destruct (customer_details session) as [email|] eqn:Hcust.
    2: { unfold patch_session_status in Hchanged.
         rewrite Hs, Hmark, Hpaid, Hcust in Hchanged. contradiction. }
    rewrite (patch_session_status_paid _ _ _ _ _ Hs Hmark Hpaid Hcust) in *.
    simpl in *.
    destruct (findOne (email_is email) users) as [u|] eqn:Hu.
    + destruct (updateOne_matched (email_is email)
                  (User.set_premium (payment_intent session)) users u Hu)
        as (before & after & Hl & Hupd & _).
      split; [exact Hpaid|]. split; [reflexivity|]. split.
      * exists email, before, u, after. now repeat split.
      * rewrite Hupd.
        destruct (findOne_is_Some
                    (transactionId_is (payment_intent session))
                    (before ++ User.set_premium (payment_intent session) u
                       :: after)
                    (User.set_premium (payment_intent session) u))
          as [marked Hmarked].
        { apply in_or_app. right. now left. }
        { unfold transactionId_is. now apply bool_decide_eq_true_2. }
        now apply patch_session_status_replay with (existing := marked).
    + rewrite (updateOne_unmatched _ _ _ Hu) in Hchanged. contradiction.
Qed.

Lemma session_status_idempotent_witness :
  Sample.gateway "cs_1"
  = Some (mkCheckoutSession (Some "pi_1") "paid" (Some (Some "a@x.com")))
  /\ snd (patch_session_status Sample.gateway "cs_1"
            [Sample.admin_record; Sample.ann_record])
     = [Sample.admin_record; User.set_premium (Some "pi_1") Sample.ann_record]
  /\ patch_session_status Sample.gateway "cs_1"
       (snd (patch_session_status Sample.gateway "cs_1"
               [Sample.admin_record; Sample.ann_record]))
     = (Some (mkResponse 200
                (AlreadyProcessed "Payment already processed" (Some "pi_1"))),
        snd (patch_session_status Sample.gateway "cs_1"
               [Sample.admin_record; Sample.ann_record])).
Proof.
  split; [reflexivity|]. split; [reflexivity|].
  refine (proj2 (proj2 (proj2
            (proj2 (session_status_idempotent Sample.gateway "cs_1"
                      (mkCheckoutSession (Some "pi_1") "paid"
                         (Some (Some "a@x.com")))
                      [Sample.admin_record; Sample.ann_record] eq_refl)
               _)))).
  discriminate.
Defined.

(** C2 as stated fails once a second paid session of the same customer has
    overwritten the marker, which is the record's one [transactionId]
    field: after cs_1 and then cs_2, both paid by Ann, no record bears the
    transaction id of cs_1, and a replay of cs_1 is not answered "Payment
    already processed" but applied again (success: true, one record
    modified). *)
Lemma session_status_replay_after_second_payment :
  patch_session_status Scenario.two_payments_gateway "cs_1" [Sample.ann_record]
  = (Some (mkResponse 200 (Reconciled (Some "pi_1") (mkUpdateResult 1 1))),
     [User.set_premium (Some "pi_1") Sample.ann_record])
  /\ patch_session_status Scenario.two_payments_gateway "cs_2"
       [User.set_premium (Some "pi_1") Sample.ann_record]
     = (Some (mkResponse 200 (Reconciled (Some "pi_2") (mkUpdateResult 1 1))),
        [User.set_premium (Some "pi_2") Sample.ann_record])
  /\ patch_session_status Scenario.two_payments_gateway "cs_1"
       [User.set_premium (Some "pi_2") Sample.ann_record]
     = (Some (mkResponse 200 (Reconciled (Some "pi_1") (mkUpdateResult 1 1))),
        [User.set_premium (Some "pi_1") Sample.ann_record])
  /\ [User.set_premium (Some "pi_1") Sample.ann_record]
     <> [User.set_premium (Some "pi_2") Sample.ann_record].
Proof. repeat split. discriminate. Qed.

(** ** Authorization *)

(** What a request that passed verifyJWT carries. *)
Lemma verifyJWT_next verifyIdToken authorization req :
  verifyJWT verifyIdToken (incoming authorization) = Next req ->
  exists email,
    req = mkRequest authorization (Some email) None.
Proof.
  unfold verifyJWT, incoming. simpl.
  destruct (authorization ≫= _) as [t|]; [|discriminate].
  destruct (String.eqb t ""); [discriminate|].
  destruct (verifyIdToken t) as [email|]; [|discriminate].
  intros [= <-]. eauto.
Qed.

(** In the complete server verifyAdmin answers 403 exactly when the
    principal has no record or a record whose role is not ["admin"], and
    lets the request through otherwise. *)
Lemma verifyAdmin_forbidden_iff users req :
  (verifyAdmin users req = Respond (mkResponse 403 (Message "Forbidden access"))
   <-> (findOne (email_is (tokenEmail req)) users = None
        \/ exists u, findOne (email_is (tokenEmail req)) users = Some u
                     /\ User.role u <> Some "admin"))
  /\ (forall u,
        findOne (email_is (tokenEmail req)) users = Some u ->
        User.role u = Some "admin" ->
        verifyAdmin users req = Next req).
Proof.
  unfold verifyAdmin, not_admin.
  destruct (findOne (email_is (tokenEmail req)) users) as [u|]; simpl.
  - destruct (decide (User.role u = Some "admin")) as [Hr|Hr].
    + rewrite bool_decide_eq_true_2 by assumption. simpl. split.
      * split; [discriminate|].
        intros [|(u' & [= <-] & Hn)]; [discriminate|contradiction].
      * reflexivity.
    + rewrite bool_decide_eq_false_2 by assumption. simpl. split.
      * split; [eauto|reflexivity].
      * intros u' [= <-]. contradiction.
  - split; [split; auto|discriminate].
Qed.

(** C5: in the complete server, for every request that passed verifyJWT
    and so carries the verified principal's email, verifyAdmin answers 403
    "Forbidden access" if and only if the principal's user record is missing
    or its role is not ["admin"]; when the record exists with role
    ["admin"] the request goes on to the handler unchanged. *)
Theorem verifyAdmin_after_verifyJWT verifyIdToken authorization req users :
  verifyJWT verifyIdToken (incoming authorization) = Next req ->
  exists email,
    tokenEmail req = Some email
    /\ (verifyAdmin users req
        = Respond (mkResponse 403 (Message "Forbidden access"))
        <-> (findOne (email_is (Some email)) users = None
             \/ exists u, findOne (email_is (Some email)) users = Some u
                          /\ User.role u <> Some "admin"))
    /\ (forall u,
          findOne (email_is (Some email)) users = Some u ->
          User.role u = Some "admin" ->
          verifyAdmin users req = Next req).
Proof.
  intros Hjwt. destruct (verifyJWT_next _ _ _ Hjwt) as [email ->].
  exists email. split; [reflexivity|].
  unfold verifyAdmin, not_admin. simpl.
  destruct (findOne (email_is (Some email)) users) as [u|]; simpl.
  - destruct (decide (User.role u = Some "admin")) as [Hr|Hr].
    + rewrite bool_decide_eq_true_2 by assumption. simpl. split.
      * split; [discriminate|].
        intros [|(u' & [= <-] & Hn)]; [discriminate|contradiction].
      * reflexivity.
    + rewrite bool_decide_eq_false_2 by assumption. simpl. split.
      * split; [eauto|reflexivity].
      * intros u' [= <-]. contradiction.
  - split; [split; auto|discriminate].
Qed.

Lemma verifyAdmin_after_verifyJWT_witness :
  verifyJWT Sample.verifier (incoming (Some "Bearer token-of-admin"))
  = Next (mkRequest (Some "Bearer token-of-admin") (Some "admin@x.com") None)
  /\ verifyAdmin [Sample.ann_record; Sample.admin_record]
       (mkRequest (Some "Bearer token-of-admin") (Some "admin@x.com") None)
     = Next (mkRequest (Some "Bearer token-of-admin") (Some "admin@x.com") None)
  /\ verifyAdmin [Sample.ann_record]
       (mkRequest (Some "Bearer token-of-admin") (Some "admin@x.com") None)
     = Respond (mkResponse 403 (Message "Forbidden access")).
Proof.
  split; [reflexivity|].
  destruct (verifyAdmin_after_verifyJWT Sample.verifier
              (Some "Bearer token-of-admin") _
              [Sample.ann_record; Sample.admin_record] eq_refl)
    as (email & Hemail & _ & Hpass).
  injection Hemail as <-.
  split; [exact (Hpass Sample.admin_record eq_refl eq_refl)|].
  destruct (verifyAdmin_after_verifyJWT Sample.verifier
              (Some "Bearer token-of-admin") _ [Sample.ann_record] eq_refl)
    as (email & Hemail & Hiff & _).
  injection Hemail as <-.
  apply Hiff. now left.
Defined.

(** In the two earlier revisions the verdict does not depend on the
    principal: a request that passed verifyJWT is judged by the first record
    without an email. *)
Lemma early_verifyAdmin_ignores_principal verifyIdToken authorization req users :
  verifyJWT verifyIdToken (incoming authorization) = Next req ->
  IndexJs.verifyAdmin users req
  = (if not_admin (findOne (email_is None) users)
     then Respond (mkResponse 403 (Message "Forbidden access"))
     else Next req)
  /\ Reports.verifyAdmin users req = IndexJs.verifyAdmin users req.
Proof.
  intros Hjwt. destruct (verifyJWT_next _ _ _ Hjwt) as [email ->].
  split; reflexivity.
Qed.

(** The three functions side by side on an administrator's request that
    passed verifyJWT, which attaches the email as [tokenEmail]: verifyAdmin
    of the two earlier revisions reads [decodedEmail], finds no record and
    answers 403, where the complete server lets the request through.  (The
    earlier revisions mount their verifyAdmin on the path
    ["users/:id/role"] only, which has no leading slash, so no request
    reaches it there.) *)
Theorem early_verifyAdmin_rejects_admin :
  let users := [Sample.ann_record; Sample.admin_record] in
  let req := mkRequest (Some "Bearer token-of-admin") (Some "admin@x.com") None in
  verifyJWT Sample.verifier (incoming (Some "Bearer token-of-admin")) = Next req
  /\ findOne (email_is (tokenEmail req)) users = Some Sample.admin_record
  /\ User.role Sample.admin_record = Some "admin"
  /\ IndexJs.verifyAdmin users req
     = Respond (mkResponse 403 (Message "Forbidden access"))
  /\ Reports.verifyAdmin users req
     = Respond (mkResponse 403 (Message "Forbidden access"))
  /\ verifyAdmin users req = Next req.
Proof. repeat split. Qed.

(** * Further properties *)

(** ** The bearer header *)

Lemma split_space_no_space (s : string) :
  has_space s = false -> split_space s = [s].
Proof.
  induction s as [|c s IH]; simpl; [reflexivity|].
  intros Hs. apply orb_false_elim in Hs as [Hc Hs].
  now rewrite Hc, (IH Hs).
Qed.

Lemma split_space_scheme (scheme rest : string) :
  has_space scheme = false ->
  split_space (scheme ++ String " " rest)%string = scheme :: split_space rest.
Proof.
  induction scheme as [|c s IH]; simpl; [reflexivity|].
  intros Hs. apply orb_false_elim in Hs as [Hc Hs].
  now rewrite Hc, (IH Hs).
Qed.

(** verifyJWT takes the text after the first space as the token and never
    looks at the scheme before it: whatever the scheme, the request goes on
    with the email the verifier returns for the token, and is answered 401
    when the verifier rejects it. *)
Theorem verifyJWT_scheme_token verifyIdToken scheme token :
  has_space scheme = false ->
  has_space token = false ->
  token <> "" ->
  verifyJWT verifyIdToken (incoming (Some (scheme ++ String " " token)%string))
  = match verifyIdToken token with
    | Some email =>
        Next (mkRequest (Some (scheme ++ String " " token)%string)
                (Some email) None)
    | None => Respond (mkResponse 401 (Failure "Unauthorized Access!" AuthError))
    end.
Proof.
  intros Hs Ht Hne. unfold verifyJWT, incoming. simpl.
  rewrite (split_space_scheme _ _ Hs), (split_space_no_space _ Ht). simpl.
  apply String.eqb_neq in Hne. now rewrite Hne.
Qed.

Lemma verifyJWT_scheme_token_witness :
  verifyJWT Sample.verifier (incoming (Some "Basic token-of-admin"))
  = Next (mkRequest (Some "Basic token-of-admin") (Some "admin@x.com") None).
Proof.
  exact (verifyJWT_scheme_token Sample.verifier "Basic" "token-of-admin"
           eq_refl eq_refl ltac:(discriminate)).
Defined.

(** Without a header, with a header that holds no space, or with one that
    ends at its first space, verifyJWT answers 401 "Unauthorized Access!"
    and the verifier has no say. *)
Theorem verifyJWT_without_token verifyIdToken authorization :
  (authorization = None
   \/ exists a, has_space a = false
                /\ (authorization = Some a
                    \/ authorization = Some (a ++ " ")%string)) ->
  verifyJWT verifyIdToken (incoming authorization)
  = Respond (mkResponse 401 (Message "Unauthorized Access!")).
Proof.
  unfold verifyJWT, incoming. simpl.
  intros [->|(a & Ha & [->| ->])]; simpl; [reflexivity| |].
  - now rewrite (split_space_no_space _ Ha).
  - now rewrite (split_space_scheme _ _ Ha).
Qed.

Lemma verifyJWT_without_token_witness :
  verifyJWT Sample.verifier (incoming (Some "token-of-admin"))
  = Respond (mkResponse 401 (Message "Unauthorized Access!")).
Proof.
  apply verifyJWT_without_token. right. exists "token-of-admin".
  split; [reflexivity|]. now left.
Defined.

(** ** Who gets past verifyAdmin *)

Lemma verifyAdmin_next_inv users req req' :
  verifyAdmin users req = Next req' ->
  req' = req
  /\ exists u, findOne (email_is (tokenEmail req)) users = Some u
               /\ User.role u = Some "admin".
Proof.
  unfold verifyAdmin, not_admin.
  destruct (findOne (email_is (tokenEmail req)) users) as [u|]; simpl.
  - destruct (decide (User.role u = Some "admin")) as [Hr|Hr].
    + rewrite bool_decide_eq_true_2 by assumption. simpl.
      intros [= <-]. eauto.
    + now rewrite bool_decide_eq_false_2 by assumption.
  - discriminate.
Qed.

(** The admin update route writes nothing unless the bearer token was
    verified and the record of the verified email has role ["admin"]. *)
Theorem admin_route_writes_need_admin verifyIdToken authorization body id users :
  snd (route_patch_user_id verifyIdToken authorization body id users) <> users ->
  exists email u,
    verifyJWT verifyIdToken (incoming authorization)
    = Next (mkRequest authorization (Some email) None)
    /\ findOne (email_is (Some email)) users = Some u
    /\ User.role u = Some "admin".
Proof.
  unfold route_patch_user_id, behind_admin.
  destruct (verifyJWT verifyIdToken (incoming authorization)) as [req1|res]
    eqn:Hjwt; simpl; [|contradiction].
  destruct (verifyJWT_next _ _ _ Hjwt) as [email ->].
  destruct (verifyAdmin users _) as [req2|res] eqn:Hadmin; simpl;
    [|contradiction].
  intros _. destruct (verifyAdmin_next_inv _ _ _ Hadmin) as (_ & u & Hu & Hr).
  eauto.
Qed.

Lemma admin_route_writes_need_admin_witness :
  snd (route_patch_user_id Sample.verifier (Some "Bearer token-of-admin")
         Scenario.rename_body Scenario.bob_id
         [Sample.admin_record; Sample.blank_role_record])
  <> [Sample.admin_record; Sample.blank_role_record]
  /\ exists email u,
       verifyJWT Sample.verifier (incoming (Some "Bearer token-of-admin"))
       = Next (mkRequest (Some "Bearer token-of-admin") (Some email) None)
       /\ findOne (email_is (Some email))
            [Sample.admin_record; Sample.blank_role_record] = Some u
       /\ User.role u = Some "admin".
Proof.
  split; [discriminate|].
  apply (admin_route_writes_need_admin Sample.verifier
           (Some "Bearer token-of-admin") Scenario.rename_body Scenario.bob_id
           [Sample.admin_record; Sample.blank_role_record]).
  discriminate.
Defined.

(** What a 201 from registration leaves in the collection. *)
Lemma post_users_stored now body users k users' :
  post_users now body users
  = (mkResponse 201 (Stored "Data is stored to database" k), users') ->
  let stored :=
    User.set_id k (User.set_role "user" (User.set_create_at now body)) in
  users' = users ++ [stored]
  /\ findOne (email_is (User.email body)) users' = Some stored.
Proof.
  intros Hpost.
  destruct (findOne (email_is (User.email body)) users) as [u|] eqn:Hfind.
  - rewrite (post_users_existing _ _ _ _ Hfind) in Hpost. discriminate.
  - destruct (post_users_new now body users Hfind)
      as [[k' Hnew]|[_ Hfail]]; rewrite Hpost in *; [|discriminate].
    injection Hnew as -> ->. simpl. split; [reflexivity|].
    apply findOne_at; [now apply findOne_None_Forall|].
    unfold email_is. now apply bool_decide_eq_true_2.
Qed.

(** A principal who has just registered is refused by verifyAdmin, whatever
    role the registration payload asked for. *)
Theorem registered_user_is_not_admin now body users k users' req :
  post_users now body users
  = (mkResponse 201 (Stored "Data is stored to database" k), users') ->
  tokenEmail req = User.email body ->
  verifyAdmin users' req
  = Respond (mkResponse 403 (Message "Forbidden access")).
Proof.
  intros Hpost Hreq.
  destruct (post_users_stored _ _ _ _ _ Hpost) as [_ Hfind].
  unfold verifyAdmin. now rewrite Hreq, Hfind.
Qed.

Lemma registered_user_is_not_admin_witness :
  verifyAdmin
    [User.set_id (KObjectId 1)
       (User.set_role "user" (User.set_create_at 1736500000000 Sample.eve_payload))]
    (mkRequest None (Some "e@x.com") None)
  = Respond (mkResponse 403 (Message "Forbidden access")).
Proof.
  exact (registered_user_is_not_admin 1736500000000 Sample.eve_payload []
           (KObjectId 1) _ (mkRequest None (Some "e@x.com") None)
           eq_refl eq_refl).
Defined.

(** Role lookup right after a registration finds the new record: role
    ["user"], and the premium flag the payload carried. *)
Theorem registered_user_role_lookup now body users k users' email :
  post_users now body users
  = (mkResponse 201 (Stored "Data is stored to database" k), users') ->
  User.email body = Some email ->
  get_users_role email users'
  = mkResponse 200 (RoleInfo "user" (or_false (User.isPremium body))).
Proof.
  intros Hpost Hemail.
  destruct (post_users_stored _ _ _ _ _ Hpost) as [_ Hfind].
  unfold get_users_role. now rewrite <- Hemail, Hfind.
Qed.

Lemma registered_user_role_lookup_witness :
  get_users_role "a@x.com"
    (snd (post_users 1736500000000 Sample.ann_payload [Sample.admin_record]))
  = mkResponse 200 (RoleInfo "user" false).
Proof.
  exact (registered_user_role_lookup 1736500000000 Sample.ann_payload
           [Sample.admin_record] (KObjectId 11) _ "a@x.com" eq_refl eq_refl).
Defined.

(** ** Profile updates *)

Section CheckedUpdates.
Context {A : Type}.
Variable q : A -> bool.
Variable u : A -> option A.

Lemma updateOne_checked_unmatched (c : list A) :
  findOne q c = None -> updateOne_checked q u c = Some c.
Proof. unfold updateOne_checked. now intros ->. Qed.

Lemma updateOne_checked_at (before after : list A) (d d' : A) :
  Forall (fun x => q x = false) before ->
  q d = true ->
  u d = Some d' ->
  updateOne_checked q u (before ++ d :: after) = Some (before ++ d' :: after).
Proof.
  intros Hb Hd Hu. unfold updateOne_checked.
  rewrite (findOne_at _ _ _ _ Hb Hd), Hu.
  rewrite (updateOne_at _ _ _ _ _ Hb Hd). now rewrite Hu.
Qed.

End CheckedUpdates.

Lemma truthy_nonempty (s : string) : s <> "" -> truthy (Some s) = true.
Proof. intros Hs. simpl. apply String.eqb_neq in Hs. now rewrite Hs. Qed.

(** PATCH /users touches the caller's record and no other: with a record
    for the principal's email the body's fields are set on it and every
    other record stays as it was; without one the answer is still 200 and
    nothing is written (no record is created). *)
Theorem patch_users_own_record email body users :
  email <> "" ->
  User._id body = None ->
  (findOne (email_is (Some email)) users = None ->
   patch_users email body users
   = (mkResponse 200 (Updated "Update Profile" (mkUpdateResult 0 0)), users))
  /\ (forall u,
        findOne (email_is (Some email)) users = Some u ->
        exists before after result u',
          users = before ++ u :: after
          /\ set_user body u = Some u'
          /\ User._id u' = User._id u
          /\ patch_users email body users
             = (mkResponse 200 (Updated "Update Profile" result),
                before ++ u' :: after)).
Proof.
  intros Hne Hid. unfold patch_users. rewrite (truthy_nonempty _ Hne). split.
  - intros Hfind.
    now rewrite (updateOne_checked_unmatched _ _ _ Hfind),
      (updateResult_unmatched _ _ _ Hfind).
  - intros u Hfind.
    destruct (updateOne_matched (email_is (Some email)) (fun x => x) users u Hfind)
      as (before & after & -> & _ & Hb).
    destruct (findOne_Some _ _ _ Hfind) as [_ Hu].
    assert (exists u', set_user body u = Some u' /\ User._id u' = User._id u)
      as (u' & Hset & Hkey).
    { unfold set_user. rewrite Hid. simpl. eauto. }
    exists before, after. eexists. exists u'.
    split; [reflexivity|]. split; [exact Hset|]. split; [exact Hkey|].
    now rewrite (updateOne_checked_at _ _ _ _ _ _ Hb Hu Hset).
Qed.

Lemma patch_users_own_record_witness :
  patch_users "b@x.com" Scenario.rename_body
    [Sample.admin_record; Sample.blank_role_record]
  = (mkResponse 200 (Updated "Update Profile" (mkUpdateResult 1 1)),
     [Sample.admin_record;
      User.mk (Some (KObjectId 11)) (Some "b@x.com") (Some "Bob B.") None
        (Some "") None None (Some 1736400000000%Z)])
  /\ patch_users "nobody@x.com" Scenario.rename_body [Sample.admin_record]
     = (mkResponse 200 (Updated "Update Profile" (mkUpdateResult 0 0)),
        [Sample.admin_record]).
Proof.
  split; [reflexivity|].
  exact (proj1 (patch_users_own_record "nobody@x.com" Scenario.rename_body
                  [Sample.admin_record] ltac:(discriminate) eq_refl)
           eq_refl).
Defined.

(** PATCH /users sets whatever the body carries, the role included: after
    a principal with a record sends [{ role: "admin" }], verifyAdmin lets
    that principal through. *)
Theorem profile_update_grants_admin email users u req :
  email <> "" ->
  findOne (email_is (Some email)) users = Some u ->
  tokenEmail req = Some email ->
  verifyAdmin (snd (patch_users email Scenario.role_admin_body users)) req
  = Next req.
Proof.
  intros Hne Hfind Hreq. unfold patch_users. rewrite (truthy_nonempty _ Hne).
  destruct (updateOne_matched (email_is (Some email)) (fun x => x) users u Hfind)
    as (before & after & -> & _ & Hb).
  destruct (findOne_Some _ _ _ Hfind) as [_ Hu].
  rewrite (updateOne_checked_at (email_is (Some email))
             (set_user Scenario.role_admin_body) before after u _ Hb Hu
             eq_refl).
  simpl. unfold verifyAdmin. rewrite Hreq.
  rewrite (findOne_at (email_is (Some email)) before after _ Hb);
    [reflexivity|].
  revert Hu. unfold email_is. simpl.
  now destruct (User.email u).
Qed.

Lemma profile_update_grants_admin_witness :
  verifyAdmin [Sample.ann_record] (mkRequest None (Some "a@x.com") None)
  = Respond (mkResponse 403 (Message "Forbidden access"))
  /\ verifyAdmin
       (snd (patch_users "a@x.com" Scenario.role_admin_body [Sample.ann_record]))
       (mkRequest None (Some "a@x.com") None)
     = Next (mkRequest None (Some "a@x.com") None).
Proof.
  split; [reflexivity|].
  exact (profile_update_grants_admin "a@x.com" [Sample.ann_record]
           Sample.ann_record (mkRequest None (Some "a@x.com") None)
           ltac:(discriminate) eq_refl eq_refl).
Defined.

(** ** Sorted listings *)

Section SortDesc.
Context {A : Type}.
Variable leb : A -> A -> bool.

Lemma insert_desc_by_perm (x : A) (c : list A) :
  Permutation (insert_desc_by leb x c) (x :: c).
Proof.
  induction c as [|y c IH]; simpl; [reflexivity|].
  destruct (leb y x); [reflexivity|].
  rewrite IH. apply perm_swap.
Qed.

Lemma sort_desc_by_perm (c : list A) : Permutation (sort_desc_by leb c) c.
Proof.
  induction c as [|x c IH]; simpl; [reflexivity|].
  rewrite insert_desc_by_perm. now constructor.
Qed.

Hypothesis leb_total : forall a b, leb a b = true \/ leb b a = true.

Lemma insert_desc_by_sorted (x : A) (c : list A) :
  Sorted (fun a b => leb b a = true) c ->
  Sorted (fun a b => leb b a = true) (insert_desc_by leb x c).
Proof.
  induction c as [|y c IH]; simpl; intros Hs.
  - repeat constructor.
  - destruct (leb y x) eqn:Hyx.
    + constructor; [exact Hs|]. now constructor.
    + apply Sorted_inv in Hs as [Hs Hhd].
      constructor; [now apply IH|].
      destruct c as [|z c]; simpl.
      * constructor. destruct (leb_total x y) as [H|H]; congruence.
      * destruct (leb z x).
        -- constructor. destruct (leb_total x y) as [H|H]; congruence.
        -- constructor. now inversion Hhd.
Qed.

Lemma sort_desc_by_sorted (c : list A) :
  Sorted (fun a b => leb b a = true) (sort_desc_by leb c).
Proof.
  induction c as [|x c IH]; simpl; [constructor|].
  now apply insert_desc_by_sorted.
Qed.

End SortDesc.

Lemma Sorted_drop {A} (R : A -> A -> Prop) (n : nat) (c : list A) :
  Sorted R c -> Sorted R (drop n c).
Proof.
  revert c. induction n as [|n IH]; intros c Hs; [exact Hs|].
  destruct c as [|x c]; [exact Hs|]. simpl.
  apply IH. now apply Sorted_inv in Hs.
Qed.

Lemma Sorted_take {A} (R : A -> A -> Prop) (n : nat) (c : list A) :
  Sorted R c -> Sorted R (take n c).
Proof.
  revert n. induction c as [|x c IH]; intros n Hs.
  - destruct n; constructor.
  - destruct n as [|n]; simpl; [constructor|].
    apply Sorted_inv in Hs as [Hs Hhd].
    constructor; [now apply IH|].
    destruct c as [|y c]; [destruct n; constructor|].
    destruct n; simpl; [constructor|].
    constructor. now inversion Hhd.
Qed.

Lemma create_at_leb_total (a b : User.t) :
  create_at_leb a b = true \/ create_at_leb b a = true.
Proof.
  unfold create_at_leb.
  destruct (User.create_at a) as [x|], (User.create_at b) as [y|]; auto.
  destruct (Z.leb_spec x y); [now left|].
  right. apply Z.leb_le. lia.
Qed.

(** GET /users lists every record but those with the caller's email, each
    once, newest first (a record without [create_at] last). *)
Theorem get_users_lists_others email users :
  exists result,
    get_users email users = mkAnswer 200 (UserList "all users" result)
    /\ Permutation result
         (List.filter (fun u => negb (bool_decide (User.email u = Some email)))
            users)
    /\ Forall (fun u => User.email u <> Some email) result
    /\ Sorted (fun a b => create_at_leb b a = true) result.
Proof.
  unfold get_users. eexists. split; [reflexivity|].
  pose proof (sort_desc_by_perm create_at_leb
                (List.filter (fun u => negb (email_is (Some email) u)) users))
    as Hperm.
  split; [exact Hperm|]. split.
  - eapply Permutation_Forall; [symmetry; exact Hperm|].
    eapply Forall_impl; [apply filter_Forall|].
    intros u Hu. apply negb_true_iff in Hu.
    now apply bool_decide_eq_false in Hu.
  - apply sort_desc_by_sorted, create_at_leb_total.
Qed.

Lemma insert_desc_as_by (x : Lesson.t) (sorted : list Lesson.t) :
  insert_desc x sorted
  = insert_desc_by
      (fun a b => createdAt_leb (Lesson.createdAt a) (Lesson.createdAt b))
      x sorted.
Proof.
  induction sorted as [|y sorted IH]; simpl; [reflexivity|].
  now rewrite IH.
Qed.

Lemma sort_createdAt_desc_by (c : list Lesson.t) :
  sort_createdAt_desc c
  = sort_desc_by
      (fun a b => createdAt_leb (Lesson.createdAt a) (Lesson.createdAt b)) c.
Proof.
  unfold sort_createdAt_desc, sort_desc_by.
  induction c as [|x c IH]; simpl; [reflexivity|].
  rewrite IH. apply insert_desc_as_by.
Qed.

Lemma createdAt_leb_total (a b : option Stamp) :
  createdAt_leb a b = true \/ createdAt_leb b a = true.
Proof.
  destruct a as [[x|s]|], b as [[y|t]|]; simpl; auto.
  - destruct (Z.leb_spec x y); [now left|]. right. apply Z.leb_le. lia.
  - apply String.leb_total.
Qed.

Lemma sort_createdAt_desc_sorted (c : list Lesson.t) :
  Sorted (fun a b => createdAt_leb (Lesson.createdAt b) (Lesson.createdAt a) = true)
    (sort_createdAt_desc c).
Proof.
  rewrite sort_createdAt_desc_by.
  apply (sort_desc_by_sorted
           (fun a b => createdAt_leb (Lesson.createdAt a) (Lesson.createdAt b))).
  intros a b. apply createdAt_leb_total.
Qed.

(** Every page of GET /public-lessons is in descending [createdAt] order:
    no lesson comes before one with a later [createdAt] (dates after texts,
    a missing [createdAt] last). *)
Theorem public_lessons_newest_first regex_i rq lessons total result :
  get_public_lessons regex_i rq lessons = mkResponse 200 (Page total result) ->
  Sorted (fun a b => createdAt_leb (Lesson.createdAt b) (Lesson.createdAt a) = true)
    result.
Proof.
  intros Hres.
  destruct (get_public_lessons_page _ _ _ _ _ Hres) as (p & _ & _ & ->).
  unfold cursor_limit.
  destruct (_ =? 0)%Z; [|apply Sorted_take];
    apply Sorted_drop, sort_createdAt_desc_sorted.
Qed.

Lemma public_lessons_newest_first_witness :
  Sorted (fun a b => createdAt_leb (Lesson.createdAt b) (Lesson.createdAt a) = true)
    [Scenario.dated_lesson 2 1736500000000;
     Scenario.dated_lesson 1 1736400000000;
     Sample.public_lesson].
Proof.
  exact (public_lessons_newest_first Sample.no_regex Sample.ask_limit_0
           [Scenario.dated_lesson 1 1736400000000; Sample.public_lesson;
            Scenario.dated_lesson 2 1736500000000]
           3 _ eq_refl).
Defined.

Lemma string_leb_trans (a b c : string) :
  String.leb a b = true -> String.leb b c = true -> String.leb a c = true.
Proof.
  unfold String.leb. revert b c.
  induction a as [|x a IH]; intros [|y b] [|z c]; simpl;
    try discriminate; try reflexivity.
  unfold Ascii.compare.
  destruct (N.compare_spec (N_of_ascii x) (N_of_ascii y)) as [Hxy|Hxy|Hxy];
    try discriminate;
    destruct (N.compare_spec (N_of_ascii y) (N_of_ascii z)) as [Hyz|Hyz|Hyz];
    try discriminate;
    destruct (N.compare_spec (N_of_ascii x) (N_of_ascii z)) as [Hxz|Hxz|Hxz];
    try reflexivity; try lia.
  apply IH.
Qed.

Lemma createdAt_leb_trans (a b c : option Stamp) :
  createdAt_leb a b = true -> createdAt_leb b c = true ->
  createdAt_leb a c = true.
Proof.
  destruct a as [[x|s]|], b as [[y|t]|], c as [[z|u]|]; simpl;
    try discriminate; try reflexivity.
  - rewrite !Z.leb_le. lia.
  - apply string_leb_trans.
Qed.

Lemma createdAt_leb_antisym (a b : option Stamp) :
  createdAt_leb a b = true -> createdAt_leb b a = true -> a = b.
Proof.
  destruct a as [[x|s]|], b as [[y|t]|]; simpl;
    try discriminate; try reflexivity.
  - rewrite !Z.leb_le. intros Hxy Hyx. do 2 f_equal. lia.
  - intros Hst Hts. do 2 f_equal. now apply String.leb_antisym.
Qed.

(** When no two lessons share a [createdAt], a descending order of them is
    the only one: whatever the store's sort does among equal keys, it has no
    choice here. *)
Lemma desc_sorted_unique (c1 c2 : list Lesson.t) :
  NoDup (map Lesson.createdAt c1) ->
  Permutation c1 c2 ->
  Sorted (fun a b => createdAt_leb (Lesson.createdAt b) (Lesson.createdAt a) = true)
    c1 ->
  Sorted (fun a b => createdAt_leb (Lesson.createdAt b) (Lesson.createdAt a) = true)
    c2 ->
  c1 = c2.
Proof.
  set (R := fun a b : Lesson.t =>
              createdAt_leb (Lesson.createdAt b) (Lesson.createdAt a) = true).
  assert (Htrans : Relations_1.Transitive R).
  { intros x y z Hxy Hyz. unfold R in *.
    now apply createdAt_leb_trans with (b := Lesson.createdAt y). }
  intros Hnodup Hperm Hs1 Hs2.
  apply (Sorted_StronglySorted Htrans) in Hs1.
  apply (Sorted_StronglySorted Htrans) in Hs2.
  revert c2 Hperm Hs2.
  induction Hs1 as [|x c1 Hs1 IH Hx]; intros c2 Hperm Hs2.
  - now apply Permutation_nil in Hperm.
  - destruct Hs2 as [|y c2 Hs2 Hy].
    { symmetry in Hperm. now apply Permutation_nil in Hperm. }
    simpl in Hnodup. apply NoDup_cons in Hnodup as [Hfresh Hnodup].
    assert (x = y) as <-.
    { assert (Hyin : In y (x :: c1))
        by (apply (Permutation_in y (Permutation_sym Hperm)); now left).
      assert (Hxin : In x (y :: c2))
        by (apply (Permutation_in x Hperm); now left).
      destruct Hyin as [Heq|Hyin]; [exact Heq|].
      destruct Hxin as [Heq|Hxin]; [now symmetry|].
      exfalso. apply Hfresh.
      rewrite List.Forall_forall in Hx, Hy.
      rewrite (createdAt_leb_antisym _ _ (Hy x Hxin) (Hx y Hyin)).
      apply list_elem_of_In, in_map, Hyin. }
    f_equal. apply IH; [exact Hnodup| |exact Hs2].
    now apply Permutation_cons_inv in Hperm.
Qed.

(** Consecutive pages tile the listing when no two matching lessons share a
    [createdAt]: the page at [skip = s] of limit [l] followed by the page at
    [skip = s + l] of limit [l'] is the page at [skip = s] of limit
    [l + l'], both report the same total, and the two pages are the cuts at
    [s] and [s + l] of any descending order of the matching lessons, so the
    equation does not rest on how the sort treats equal keys. *)
Theorem public_lessons_pages_tile regex_i rq s l l' lessons p
  total1 page1 total2 page2 :
  (0 <= s)%Z -> (0 < l)%Z -> (0 < l')%Z ->
  lesson_matches regex_i (build_query rq) = Some p ->
  NoDup (map Lesson.createdAt (List.filter p lessons)) ->
  get_public_lessons regex_i (page_of rq s l) lessons
  = mkResponse 200 (Page total1 page1) ->
  get_public_lessons regex_i (page_of rq (s + l) l') lessons
  = mkResponse 200 (Page total2 page2) ->
  total1 = total2
  /\ get_public_lessons regex_i (page_of rq s (l + l')) lessons
     = mkResponse 200 (Page total1 (page1 ++ page2))
  /\ forall sorted,
       Permutation sorted (List.filter p lessons) ->
       Sorted (fun a b =>
                 createdAt_leb (Lesson.createdAt b) (Lesson.createdAt a) = true)
         sorted ->
       page1 = firstn (Z.to_nat l) (drop (Z.to_nat s) sorted)
       /\ page2 = firstn (Z.to_nat l') (drop (Z.to_nat (s + l)) sorted).
Proof.
  intros Hs Hl Hl' Hp Hnodup H1 H2.
  destruct (get_public_lessons_page _ _ _ _ _ H1) as (p1 & Hp1 & -> & ->).
  destruct (get_public_lessons_page _ _ _ _ _ H2) as (p2 & Hp2 & -> & ->).
  change (build_query (page_of rq s l)) with (build_query rq) in Hp1.
  change (build_query (page_of rq (s + l) l')) with (build_query rq) in Hp2.
  rewrite Hp in Hp1, Hp2. injection Hp1 as <-. injection Hp2 as <-.
  split; [reflexivity|].
  unfold cursor_limit. simpl.
  destruct (Z.eqb_spec l 0) as [|_]; [lia|].
  destruct (Z.eqb_spec l' 0) as [|_]; [lia|].
  split.
  - unfold get_public_lessons.
    change (build_query (page_of rq s (l + l'))) with (build_query rq).
    rewrite Hp. simpl.
    destruct (Z.ltb_spec s 0) as [|_]; [lia|].
    unfold cursor_limit, countDocuments.
    destruct (Z.eqb_spec (l + l') 0) as [|_]; [lia|].
    do 2 f_equal.
    replace (Z.to_nat (Z.abs (l + l')))
      with (Z.to_nat (Z.abs l) + Z.to_nat (Z.abs l')) by lia.
    replace (Z.to_nat (s + l)) with (Z.to_nat s + Z.to_nat (Z.abs l)) by lia.
    rewrite <- drop_drop. symmetry. apply take_take_drop.
  - intros sorted Hperm Hsorted.
    assert (sort_createdAt_desc (List.filter p lessons) = sorted) as ->.
    { apply desc_sorted_unique.
      - apply NoDup_ListNoDup.
        eapply Permutation_NoDup; [|apply NoDup_ListNoDup; exact Hnodup].
        apply Permutation_map. symmetry. apply sort_createdAt_desc_perm.
      - rewrite sort_createdAt_desc_perm. now symmetry.
      - apply sort_createdAt_desc_sorted.
      - exact Hsorted. }
    replace (Z.to_nat (Z.abs l)) with (Z.to_nat l) by lia.
    replace (Z.to_nat (Z.abs l')) with (Z.to_nat l') by lia.
    split; reflexivity.
Qed.

Lemma public_lessons_pages_tile_witness :
  get_public_lessons Sample.no_regex (page_of Sample.ask_limit_0 0 2)
    Scenario.five_dated_lessons
  = mkResponse 200
      (Page 5 [Scenario.dated_lesson 5 1736500000005;
               Scenario.dated_lesson 4 1736500000004])
  /\ get_public_lessons Sample.no_regex (page_of Sample.ask_limit_0 0 (2 + 2))
       Scenario.five_dated_lessons
     = mkResponse 200
         (Page 5 ([Scenario.dated_lesson 5 1736500000005;
                   Scenario.dated_lesson 4 1736500000004]
                  ++ [Scenario.dated_lesson 3 1736500000003;
                      Scenario.dated_lesson 2 1736500000002])).
Proof.
  split; [reflexivity|].
  refine (proj1 (proj2 (public_lessons_pages_tile Sample.no_regex
                          Sample.ask_limit_0 0 2 2 Scenario.five_dated_lessons
                          _ 5 _ 5 _ ltac:(lia) ltac:(lia) ltac:(lia)
                          eq_refl _ eq_refl eq_refl))).
  simpl. repeat (apply NoDup_cons_2; [|]); try apply NoDup_nil_2;
    intros Hin;
    repeat (apply elem_of_cons in Hin as [Hin|Hin]; [discriminate|]);
    inversion Hin.
Defined.

(** In the revision with the reports collection GET /public-lessons lists
    the whole collection, private lessons included, each lesson once and
    newest first. *)
Theorem early_public_lessons_lists_all lessons :
  exists result,
    ReportsLessons.get_public_lessons lessons
    = mkAnswer 200 (AllLessons "All lessons" result)
    /\ Permutation result lessons
    /\ Sorted (fun a b =>
                 createdAt_leb (Lesson.createdAt b) (Lesson.createdAt a) = true)
         result.
Proof.
  eexists. split; [reflexivity|].
  split; [apply sort_createdAt_desc_perm|apply sort_createdAt_desc_sorted].
Qed.

Lemma sort_desc_by_ties {A} (c : list A) :
  sort_desc_by (fun _ _ : A => true) c = c.
Proof.
  induction c as [|x c IH]; simpl; [reflexivity|].
  rewrite IH. now destruct c.
Qed.

(** GET /lessons/most-favorites does not rank by favorites: it answers with
    at most six lessons of the collection, all public, and two collections
    that differ only in their favorites get the same lessons. *)
Theorem most_favorites_ignores_favorites lessons :
  exists result,
    get_lessons_most_favorites lessons = mkAnswer 200 (LessonList result)
    /\ length result <= 6
    /\ Forall (fun l => In l lessons /\ Lesson.visibility l = Some "public")
         result
    /\ forall lessons' result',
         map without_favorites lessons' = map without_favorites lessons ->
         get_lessons_most_favorites lessons'
         = mkAnswer 200 (LessonList result') ->
         map without_favorites result' = map without_favorites result.
Proof.
  assert (Hshape : forall c,
             get_lessons_most_favorites c
             = mkAnswer 200
                 (LessonList
                    (firstn 6
                       (List.filter
                          (fun l => field_is "public" (Lesson.visibility l)) c)))).
  { intros c. unfold get_lessons_most_favorites. now rewrite sort_desc_by_ties. }
  eexists. split; [apply Hshape|]. split; [apply firstn_le_length|]. split.
  - apply Forall_take, List.Forall_forall. intros l Hl.
    apply filter_In in Hl as [Hin Hpub].
    split; [exact Hin|]. now apply bool_decide_eq_true in Hpub.
  - intros lessons' result' Hsame. rewrite Hshape. intros [= <-].
    rewrite <- !firstn_map. f_equal.
    revert lessons' Hsame.
    induction lessons as [|x c IH]; intros [|y c'] Hsame;
      try discriminate; [reflexivity|].
    apply (f_equal (fun m => (head m, tail m))) in Hsame.
    cbn [map head tail] in Hsame.
    assert (Hxy : without_favorites y = without_favorites x) by congruence.
    assert (Hrest : map without_favorites c' = map without_favorites c)
      by congruence.
    clear Hsame. simpl.
    assert (Lesson.visibility y = Lesson.visibility x) as ->
      by exact (f_equal Lesson.visibility Hxy).
    destruct (field_is "public" (Lesson.visibility x)); simpl;
      [f_equal; [exact Hxy|]|]; now apply IH.
Qed.

Lemma most_favorites_ignores_favorites_witness :
  get_lessons_most_favorites [Sample.private_lesson; Sample.liked_lesson]
  = mkAnswer 200 (LessonList [Sample.liked_lesson])
  /\ get_lessons_most_favorites [Sample.private_lesson; Scenario.favorite_lesson]
     = mkAnswer 200 (LessonList [Scenario.favorite_lesson])
  /\ map without_favorites [Scenario.favorite_lesson]
     = map without_favorites [Sample.liked_lesson].
Proof.
  split; [reflexivity|]. split; [reflexivity|].
  destruct (most_favorites_ignores_favorites
              [Sample.private_lesson; Sample.liked_lesson])
    as (result & Hres & _ & _ & Hsame).
  injection Hres as <-.
  exact (Hsame [Sample.private_lesson; Scenario.favorite_lesson]
           [Scenario.favorite_lesson] eq_refl eq_refl).
Defined.

(** ** Fetching, deleting and editing a lesson *)

Section DeleteFacts.
Context {A : Type}.
Variable q : A -> bool.

Lemma deleteOne_unmatched (c : list A) :
  findOne q c = None -> deleteOne q c = c.
Proof.
  unfold findOne. induction c as [|d c IH]; simpl; [reflexivity|].
  destruct (q d); [discriminate|]. intros Hc. now rewrite IH.
Qed.

Lemma deleteOne_at (before after : list A) (d : A) :
  Forall (fun x => q x = false) before ->
  q d = true ->
  deleteOne q (before ++ d :: after) = before ++ after.
Proof.
  intros Hb Hd. induction Hb as [|x b Hx _ IH]; simpl.
  - now rewrite Hd.
  - now rewrite Hx, IH.
Qed.

End DeleteFacts.

(** DELETE /lessons/:id on a well-formed id takes out the lesson the id
    resolves to and nothing else, reporting one deletion; when the id
    resolves to no lesson it still answers 200, reports none and leaves the
    collection as it was. *)
Theorem delete_lesson_removes_one id k lessons :
  ObjectId id = Some k ->
  (findOne (id_is k) lessons = None ->
   delete_lessons_id id lessons
   = (mkAnswer 200 (Deleted "Delete lessons" 0), lessons))
  /\ (forall lesson,
        findOne (id_is k) lessons = Some lesson ->
        exists before after,
          lessons = before ++ lesson :: after
          /\ delete_lessons_id id lessons
             = (mkAnswer 200 (Deleted "Delete lessons" 1), before ++ after)).
Proof.
  intros Hid. unfold delete_lessons_id. rewrite Hid. split.
  - intros Hfind. now rewrite Hfind, (deleteOne_unmatched _ _ Hfind).
  - intros lesson Hfind. rewrite Hfind.
    destruct (updateOne_matched (id_is k) (fun x => x) lessons lesson Hfind)
      as (before & after & -> & _ & Hb).
    destruct (findOne_Some _ _ _ Hfind) as [_ Hk].
    exists before, after. split; [reflexivity|].
    now rewrite (deleteOne_at _ _ _ _ Hb Hk).
Qed.

Lemma delete_lesson_removes_one_witness :
  delete_lessons_id Sample.lesson_1_id
    [Sample.private_lesson; Sample.liked_lesson]
  = (mkAnswer 200 (Deleted "Delete lessons" 1), [Sample.private_lesson])
  /\ delete_lessons_id Sample.lesson_1_id [Sample.private_lesson]
     = (mkAnswer 200 (Deleted "Delete lessons" 0), [Sample.private_lesson]).
Proof.
  split; [reflexivity|].
  exact (proj1 (delete_lesson_removes_one Sample.lesson_1_id (KObjectId 1)
                  [Sample.private_lesson] eq_refl)
           eq_refl).
Defined.

(** In a collection without two lessons of one key, a lesson is gone for
    good after DELETE: GET /lessons/:id answers 200 with a null result, and
    a second DELETE reports no deletion and changes nothing. *)
Theorem delete_then_get id k lessons :
  ObjectId id = Some k ->
  NoDup (map Lesson._id lessons) ->
  get_lessons_id id (snd (delete_lessons_id id lessons))
  = mkAnswer 200 (OneLesson "Get the lesson" None)
  /\ delete_lessons_id id (snd (delete_lessons_id id lessons))
     = (mkAnswer 200 (Deleted "Delete lessons" 0),
        snd (delete_lessons_id id lessons)).
Proof.
  intros Hid Hnodup.
  assert (Hgone : findOne (id_is k) (snd (delete_lessons_id id lessons)) = None).
  { unfold delete_lessons_id. rewrite Hid. simpl.
    destruct (findOne (id_is k) lessons) as [lesson|] eqn:Hfind.
    - destruct (updateOne_matched (id_is k) (fun x => x) lessons lesson Hfind)
        as (before & after & -> & _ & Hb).
      destruct (findOne_Some _ _ _ Hfind) as [_ Hk].
      rewrite (deleteOne_at _ _ _ _ Hb Hk).
      apply findOne_None_Forall, Forall_app. split; [exact Hb|].
      rewrite map_app in Hnodup. simpl in Hnodup.
      apply NoDup_app in Hnodup as (_ & _ & Hafter).
      apply NoDup_cons in Hafter as [Hnotin _].
      apply List.Forall_forall. intros x Hx.
      unfold id_is in *. apply bool_decide_eq_true in Hk.
      apply bool_decide_eq_false. intros Hxk. apply Hnotin.
      apply list_elem_of_In, in_map_iff. exists x. split; [congruence|exact Hx].
    - now rewrite (deleteOne_unmatched _ _ Hfind). }
  revert Hgone. generalize (snd (delete_lessons_id id lessons)).
  intros rest Hgone. split.
  - unfold get_lessons_id. now rewrite Hid, Hgone.
  - unfold delete_lessons_id.
    now rewrite Hid, Hgone, (deleteOne_unmatched _ _ Hgone).
Qed.

Lemma delete_then_get_witness :
  get_lessons_id Sample.lesson_1_id
    (snd (delete_lessons_id Sample.lesson_1_id
            [Sample.private_lesson; Sample.liked_lesson]))
  = mkAnswer 200 (OneLesson "Get the lesson" None).
Proof.
  refine (proj1 (delete_then_get Sample.lesson_1_id (KObjectId 1)
                   [Sample.private_lesson; Sample.liked_lesson] eq_refl _)).
  repeat constructor; simpl; intros Hin; inversion Hin as [|? ? ? Hin'];
    inversion Hin'.
Defined.

Lemma updateOne_twice {A} (q : A -> bool) (u : A -> A) (c : list A) :
  (forall d, q d = true -> q (u d) = true) ->
  (forall d, q d = true -> u (u d) = u d) ->
  updateOne q u (updateOne q u c) = updateOne q u c.
Proof.
  intros Hq Hu. induction c as [|d c IH]; simpl; [reflexivity|].
  destruct (q d) eqn:Hd; simpl.
  - now rewrite (Hq d Hd), (Hu d Hd).
  - now rewrite Hd, IH.
Qed.

(** What [$set] does to a lesson once [_id] is out of the body. *)
Lemma set_lesson_delete_id body l :
  exists l',
    set_lesson (LessonPatch.delete_id body) l = Some l'
    /\ Lesson._id l' = Lesson._id l
    /\ set_lesson (LessonPatch.delete_id body) l' = Some l'.
Proof.
  unfold set_lesson. simpl. eexists. split; [reflexivity|].
  split; [reflexivity|]. simpl.
  now destruct (LessonPatch.title body), (LessonPatch.category body),
    (LessonPatch.visibility body), (LessonPatch.accessLevel body),
    (LessonPatch.createdAt body), (LessonPatch.likes body),
    (LessonPatch.favorites body), (LessonPatch.comments body).
Qed.

Lemma patch_lessons_id_writes body id k lessons :
  ObjectId id = Some k ->
  snd (patch_lessons_id body id lessons)
  = updateOne (id_is k)
      (fun l => default l (set_lesson (LessonPatch.delete_id body) l)) lessons.
Proof.
  intros Hid. unfold patch_lessons_id. rewrite Hid.
  cbv zeta. unfold updateOne_checked.
  destruct (findOne (id_is k) lessons) as [l|] eqn:Hfind.
  - destruct (set_lesson_delete_id body l) as (l' & Hset & _).
    now rewrite Hset.
  - cbn [snd]. now rewrite (updateOne_unmatched _ _ _ Hfind).
Qed.

(** PATCH /lessons/:id is idempotent on the collection: sending the same
    body to the same id a second time changes nothing further.  An [_id]
    in the body plays no part. *)
Theorem patch_lesson_idempotent body id lessons :
  snd (patch_lessons_id body id (snd (patch_lessons_id body id lessons)))
  = snd (patch_lessons_id body id lessons)
  /\ snd (patch_lessons_id (LessonPatch.delete_id body) id lessons)
     = snd (patch_lessons_id body id lessons).
Proof.
  destruct (ObjectId id) as [k|] eqn:Hid.
  - rewrite !(patch_lessons_id_writes _ _ _ _ Hid). split; [|reflexivity].
    apply updateOne_twice; intros d Hd;
      destruct (set_lesson_delete_id body d) as (d' & Hset & Hkey & Hagain);
      rewrite Hset; change (default d (Some d')) with d'.
    + unfold id_is in *. now rewrite Hkey.
    + now rewrite Hagain.
  - unfold patch_lessons_id. now rewrite Hid.
Qed.

(** After PATCH /lessons/:id on a well-formed id, GET /lessons/:id answers
    with the lesson it answered with before, the fields of the body set on
    it, and null if the id resolves to no lesson; the lesson keeps its
    key. *)
Theorem patch_then_get body id k lessons :
  ObjectId id = Some k ->
  get_lessons_id id (snd (patch_lessons_id body id lessons))
  = mkAnswer 200
      (OneLesson "Get the lesson"
         (findOne (id_is k) lessons
            ≫= set_lesson (LessonPatch.delete_id body))).
Proof.
  intros Hid. unfold get_lessons_id.
  rewrite Hid, (patch_lessons_id_writes _ _ _ _ Hid).
  destruct (findOne (id_is k) lessons) as [l|] eqn:Hfind.
  - destruct (updateOne_matched (id_is k) (fun x => x) lessons l Hfind)
      as (before & after & -> & _ & Hb).
    destruct (findOne_Some _ _ _ Hfind) as [_ Hk].
    rewrite (updateOne_at _ _ _ _ _ Hb Hk).
    destruct (set_lesson_delete_id body l) as (l' & Hset & Hkey & _).
    change (Some l ≫= set_lesson (LessonPatch.delete_id body))
      with (set_lesson (LessonPatch.delete_id body) l).
    rewrite Hset. change (default l (Some l')) with l'.
    rewrite (findOne_at (id_is k) before after l' Hb); [reflexivity|].
    unfold id_is in *. now rewrite Hkey.
  - now rewrite (updateOne_unmatched _ _ _ Hfind), Hfind.
Qed.

Lemma patch_then_get_witness :
  get_lessons_id Sample.lesson_1_id
    (snd (patch_lessons_id Scenario.retitle_body Sample.lesson_1_id
            [Sample.private_lesson; Sample.liked_lesson]))
  = mkAnswer 200
      (OneLesson "Get the lesson"
         (Some (Lesson.mk (KObjectId 1) (Some "On rest") (Some "Growth")
                  (Some "private") (Some "free")
                  (Some (Text "2025-01-10T09:00:00.000Z"))
                  (Some ["a@x.com"; "b@x.com"]) None None))).
Proof.
  exact (patch_then_get Scenario.retitle_body Sample.lesson_1_id (KObjectId 1)
           [Sample.private_lesson; Sample.liked_lesson] eq_refl).
Defined.

(** ** Comments, favorites and the first like route *)












(** ** More on reconciliation *)

Lemma Forall2_updateOne {A} (R : A -> A -> Prop) (q : A -> bool) (u : A -> A)
  (c : list A) :
  (forall d, R d d) -> (forall d, R d (u d)) -> Forall2 R c (updateOne q u c).
Proof.
  intros Hrefl Hu. induction c as [|d c IH]; simpl; [constructor|].
  destruct (q d); constructor; auto.
  clear IH. induction c; constructor; auto.
Qed.

Lemma patch_session_status_writes retrieve sessionId users :
  snd (patch_session_status retrieve sessionId users) = users
  \/ exists email tid,
       snd (patch_session_status retrieve sessionId users)
       = updateOne (email_is email) (User.set_premium tid) users.
Proof.
  unfold patch_session_status.
  destruct (retrieve sessionId) as [session|]; [|now left].
  destruct (findOne _ users); [now left|].
  destruct (String.eqb _ "paid"); [|now left].
  destruct (customer_details session) as [email|]; [|now left].
  right. eauto.
Qed.

(** Reconciliation never takes anything away: whatever the gateway says,
    every user record keeps its key, email, name, photo, role and creation
    time, no record is added or dropped, and a record that was premium is
    premium afterwards. *)
Theorem session_status_never_revokes retrieve sessionId users :
  Forall2
    (fun u u' =>
       User._id u' = User._id u
       /\ User.email u' = User.email u
       /\ User.name u' = User.name u
       /\ User.photoURL u' = User.photoURL u
       /\ User.role u' = User.role u
       /\ User.create_at u' = User.create_at u
       /\ (User.isPremium u = Some true -> User.isPremium u' = Some true))
    users
    (snd (patch_session_status retrieve sessionId users)).
Proof.
  destruct (patch_session_status_writes retrieve sessionId users)
    as [->|(email & tid & ->)].
  - induction users; constructor; auto. repeat split; auto.
  - apply Forall2_updateOne; intros d; repeat split; auto.
Qed.

(** A paid session whose customer email has no user record is answered
    success: true with nothing matched, and no record is written: the call
    leaves no trace, so a replay is answered the same way. *)
Theorem session_status_unknown_customer retrieve sessionId session email users :
  retrieve sessionId = Some session ->
  findOne (transactionId_is (payment_intent session)) users = None ->
  payment_status session = "paid" ->
  customer_details session = Some email ->
  findOne (email_is email) users = None ->
  patch_session_status retrieve sessionId users
  = (Some (mkResponse 200
             (Reconciled (payment_intent session) (mkUpdateResult 0 0))),
     users).
Proof.
  intros Hs Hmark Hpaid Hcust Hnone.
  rewrite (patch_session_status_paid _ _ _ _ _ Hs Hmark Hpaid Hcust).
  now rewrite (updateOne_unmatched _ _ _ Hnone),
    (updateResult_unmatched _ _ _ Hnone).
Qed.

Lemma session_status_unknown_customer_witness :
  patch_session_status Scenario.stranger_gateway "cs_2"
    [Sample.admin_record; Sample.ann_record]
  = (Some (mkResponse 200 (Reconciled (Some "pi_2") (mkUpdateResult 0 0))),
     [Sample.admin_record; Sample.ann_record]).
Proof.
  exact (session_status_unknown_customer Scenario.stranger_gateway "cs_2"
           (mkCheckoutSession (Some "pi_2") "paid" (Some (Some "z@x.com")))
           (Some "z@x.com") [Sample.admin_record; Sample.ann_record]
           eq_refl eq_refl eq_refl eq_refl eq_refl).
Defined.

(** ** More on the analytics window *)

Lemma between_handler_bounds (now t : Z) :
  between (startOfUTCDay (now - 6 * day_ms)) (endOfUTCDay now) (Some (Date t))
  = ((now / day_ms - 6 <=? t / day_ms) && (t / day_ms <=? now / day_ms))%Z.
Proof.
  unfold between, startOfUTCDay, endOfUTCDay, day_ms.
  replace ((now - 6 * 86400000) / 86400000)%Z with (now / 86400000 - 6)%Z.
  2: { replace (now - 6 * 86400000)%Z with (now + (-6) * 86400000)%Z by lia.
       rewrite Z.div_add by lia. lia. }
  pose proof (Z.div_mod now 86400000 ltac:(lia)) as Hnow.
  pose proof (Z.mod_pos_bound now 86400000 ltac:(lia)) as Hnr.
  pose proof (Z.div_mod t 86400000 ltac:(lia)) as Ht.
  pose proof (Z.mod_pos_bound t 86400000 ltac:(lia)) as Htr.
  generalize dependent (now / 86400000)%Z. intros qn Hnow.
  generalize dependent (t / 86400000)%Z. intros qt Ht.
  destruct (Z.leb_spec (qn - 6) qt), (Z.leb_spec qt qn); simpl;
    repeat match goal with
           | |- context [(?a <=? ?b)%Z] => destruct (Z.leb_spec a b)
           end; simpl; try reflexivity; lia.
Qed.

(** The analytics window is seven UTC calendar days: with the clock at
    [now], the [$match] stage keeps exactly the public lessons whose
    [createdAt] is a date falling on the UTC day of [now] or on one of the
    six days before it. *)
Theorem analytics_window_seven_utc_days now lessons :
  match_recent_public (startOfUTCDay (now - 6 * day_ms)) (endOfUTCDay now)
    lessons
  = List.filter
      (fun l =>
         match Lesson.createdAt l with
         | Some (Date t) =>
             (now / day_ms - 6 <=? t / day_ms)%Z
             && (t / day_ms <=? now / day_ms)%Z
         | _ => false
         end
         && field_is "public" (Lesson.visibility l))
      lessons.
Proof.
  unfold match_recent_public. apply filter_ext. intros l. f_equal.
  destruct (Lesson.createdAt l) as [[t|s]|]; try reflexivity.
  apply between_handler_bounds.
Qed.

(** Lessons whose [createdAt] is a text, as a JSON payload stores it, or is
    missing, never count: over a collection of such lessons the analytics
    answer is free 0 and premium 0 at any time. *)
Theorem analytics_ignores_text_dates now_end now_start lessons :
  Forall (fun l => forall t, Lesson.createdAt l <> Some (Date t)) lessons ->
  get_analytics_accessLevel now_end now_start lessons
  = mkResponse 200
      (Levels [mkLevelCount "free" 0; mkLevelCount "premium" 0]).
Proof.
  intros Htext. unfold get_analytics_accessLevel.
  replace (match_recent_public _ _ lessons) with (@nil Lesson.t);
    [reflexivity|].
  unfold match_recent_public.
  induction Htext as [|l c Hl _ IH]; simpl; [reflexivity|].
  destruct (Lesson.createdAt l) as [[t|s]|]; simpl; try exact IH.
  now destruct (Hl t).
Qed.

Lemma analytics_ignores_text_dates_witness :
  get_analytics_accessLevel 1736500000000 1736500000000
    [Sample.public_lesson; Sample.liked_lesson]
  = mkResponse 200
      (Levels [mkLevelCount "free" 0; mkLevelCount "premium" 0]).
Proof.
  apply analytics_ignores_text_dates.
  repeat constructor; intros t; discriminate.
Defined.

(** ** Checkout in src/index.js *)

(** In src/index.js no request gets a checkout session: a request that
    passed verifyJWT has no [decodedEmail], the destructuring throws before
    the gateway is called, and the answer is 500. *)
Theorem early_checkout_always_fails verifyIdToken create authorization req :
  verifyJWT verifyIdToken (incoming authorization) = Next req ->
  IndexJsCheckout.post_create_checkout_session create req
  = mkAnswer 500 (FailedText "Failed to create Stripe checkout session").
Proof.
  intros Hjwt. destruct (verifyJWT_next _ _ _ Hjwt) as [email ->].
  reflexivity.
Qed.

Lemma early_checkout_always_fails_witness :
  IndexJsCheckout.post_create_checkout_session Scenario.open_gateway
    (mkRequest (Some "Bearer token-of-admin") (Some "admin@x.com") None)
  = mkAnswer 500 (FailedText "Failed to create Stripe checkout session")
  /\ post_create_checkout_session Scenario.open_gateway "admin@x.com"
     = mkAnswer 200 (CheckoutUrl "https://checkout.example/session").
Proof.
  split; [|reflexivity].
  exact (early_checkout_always_fails Sample.verifier Scenario.open_gateway
           (Some "Bearer token-of-admin") _ eq_refl).
Defined.

(** ** From payment to role lookup *)

(** Once a paid session is reconciled for a customer with a user record,
    role lookup for that email reports the record's role as before and
    [isPremium] true. *)
Theorem paid_session_shows_in_role_lookup retrieve sessionId session email
  users u :
  retrieve sessionId = Some session ->
  findOne (transactionId_is (payment_intent session)) users = None ->
  payment_status session = "paid" ->
  customer_details session = Some (Some email) ->
  findOne (email_is (Some email)) users = Some u ->
  get_users_role email (snd (patch_session_status retrieve sessionId users))
  = mkResponse 200 (RoleInfo (or_string (User.role u) "user") true).
Proof.
  intros Hs Hmark Hpaid Hcust Hfind.
  rewrite (patch_session_status_paid _ _ _ _ _ Hs Hmark Hpaid Hcust). simpl.
  destruct (updateOne_matched (email_is (Some email)) (fun x => x) users u Hfind)
    as (before & after & -> & _ & Hb).
  destruct (findOne_Some _ _ _ Hfind) as [_ Hu].
  rewrite (updateOne_at _ _ _ _ _ Hb Hu).
  unfold get_users_role.
  now rewrite (findOne_at (email_is (Some email)) before after
                 (User.set_premium (payment_intent session) u) Hb Hu).
Qed.

Lemma paid_session_shows_in_role_lookup_witness :
  get_users_role "a@x.com" [Sample.admin_record; Sample.ann_record]
  = mkResponse 200 (RoleInfo "user" false)
  /\ get_users_role "a@x.com"
       (snd (patch_session_status Sample.gateway "cs_1"
               [Sample.admin_record; Sample.ann_record]))
     = mkResponse 200 (RoleInfo "user" true).
Proof.
  split; [reflexivity|].
  exact (paid_session_shows_in_role_lookup Sample.gateway "cs_1"
           (mkCheckoutSession (Some "pi_1") "paid" (Some (Some "a@x.com")))
           "a@x.com" [Sample.admin_record; Sample.ann_record]
           Sample.ann_record eq_refl eq_refl eq_refl eq_refl eq_refl).
Defined.

(** ** Witnesses for the authorization lemmas *)

Lemma verifyAdmin_forbidden_iff_witness :
  verifyAdmin [Sample.ann_record; Sample.admin_record]
    (mkRequest None (Some "admin@x.com") None)
  = Next (mkRequest None (Some "admin@x.com") None)
  /\ verifyAdmin [Sample.ann_record; Sample.admin_record]
       (mkRequest None (Some "a@x.com") None)
     = Respond (mkResponse 403 (Message "Forbidden access")).
Proof.
  split.
  - exact (proj2 (verifyAdmin_forbidden_iff
                    [Sample.ann_record; Sample.admin_record]
                    (mkRequest None (Some "admin@x.com") None))
             Sample.admin_record eq_refl eq_refl).
  - apply (proj1 (verifyAdmin_forbidden_iff
                    [Sample.ann_record; Sample.admin_record]
                    (mkRequest None (Some "a@x.com") None))).
    right. exists Sample.ann_record. split; [reflexivity|discriminate].
Defined.

Lemma early_verifyAdmin_ignores_principal_witness :
  IndexJs.verifyAdmin [Sample.ann_record; Sample.admin_record]
    (mkRequest (Some "Bearer token-of-admin") (Some "admin@x.com") None)
  = (if not_admin (findOne (email_is None)
                     [Sample.ann_record; Sample.admin_record])
     then Respond (mkResponse 403 (Message "Forbidden access"))
     else Next (mkRequest (Some "Bearer token-of-admin") (Some "admin@x.com")
                  None)).
Proof.
  exact (proj1 (early_verifyAdmin_ignores_principal Sample.verifier
                  (Some "Bearer token-of-admin") _
                  [Sample.ann_record; Sample.admin_record] eq_refl)).
Defined.

Lemma session_status_never_revokes_witness :
  Forall2
    (fun u u' =>
       User._id u' = User._id u
       /\ User.email u' = User.email u
       /\ User.name u' = User.name u
       /\ User.photoURL u' = User.photoURL u
       /\ User.role u' = User.role u
       /\ User.create_at u' = User.create_at u
       /\ (User.isPremium u = Some true -> User.isPremium u' = Some true))
    [Sample.admin_record; Sample.ann_record]
    [Sample.admin_record; User.set_premium (Some "pi_1") Sample.ann_record].
Proof.
  exact (session_status_never_revokes Sample.gateway "cs_1"
           [Sample.admin_record; Sample.ann_record]).
Defined.
